(** * copier_wrapper / copier_update: reference parsing, cache policy, forwarding

    A shallow embedding of [src/template/tools/copier_wrapper.py] and of the
    parts of [src/template/tools/copier_update.py] that build the download
    URL and the cache file name.

    Conventions of the model.
    - A Python [str] is the [string] of the bytes of its UTF-8 encoding.
      Searching, cutting and replacing at the ASCII characters [/], [@],
      [_] and the prefix [gh:] are the same on bytes and on code points;
      the class [\d] of the [re] module is decoded: it matches one code
      point, of one to four bytes, that the Unicode database lists as a
      decimal digit.
    - A [pathlib.Path] is represented by its string form; the join operator
      [/] of pathlib belongs to the environment.
    - Everything the scripts reach outside themselves (HTTP, the pooch
      download helper, the file system calls, the copier subprocess) is a
      field of the class [Env]; the scripts thread a [World] (the cache
      files and the trace of external effects) through their calls. *)

From Stdlib Require Import String Ascii List ZArith Lia Bool.
From stdpp Require Import base gmap strings.
Import ListNotations.

Local Open Scope Z_scope.

(* stdpp blocks the unfolding of string concatenation; the proofs below
   compute with it on literals and constructors. *)
#[local] Arguments String.append !_ _ / : simpl nomatch.

(** ** Python string primitives *)

Module PyStr.

(** [s.startswith(p)] *)
Fixpoint startswith (s p : string) {struct p} : bool :=
  match p with
  | EmptyString => true
  | String b p' =>
      match s with
      | String a s' => Ascii.eqb a b && startswith s' p'
      | EmptyString => false
      end
  end.

(** [s[n:]] for a non-negative [n] *)
Fixpoint drop (n : nat) (s : string) : string :=
  match n with
  | O => s
  | S n' => match s with
            | String _ s' => drop n' s'
            | EmptyString => EmptyString
            end
  end.

(** [c in s] for a one-character [c] *)
Fixpoint contains (c : ascii) (s : string) : bool :=
  match s with
  | EmptyString => false
  | String a s' => Ascii.eqb a c || contains c s'
  end.

(** [s.split(sep)] for a one-character separator: never the empty list. *)
Fixpoint split (sep : ascii) (s : string) : list string :=
  match s with
  | EmptyString => [EmptyString]
  | String a s' =>
      if Ascii.eqb a sep then EmptyString :: split sep s'
      else match split sep s' with
           | h :: t => String a h :: t
           | [] => [String a EmptyString]
           end
  end.

(** [s.split(sep, n)] for a one-character separator and [n >= 0]:
    at most [n] cuts, the rest of the string is the last element. *)
Fixpoint splitn (sep : ascii) (n : nat) (s : string) {struct s} : list string :=
  match n with
  | O => [s]
  | S n' =>
      match s with
      | EmptyString => [EmptyString]
      | String a s' =>
          if Ascii.eqb a sep then EmptyString :: splitn sep n' s'
          else match splitn sep n s' with
               | h :: t => String a h :: t
               | [] => [String a EmptyString]
               end
      end
  end.

(** [s.replace(a, b)] for one-character [a] and [b] *)
Fixpoint replace (a b : ascii) (s : string) : string :=
  match s with
  | EmptyString => EmptyString
  | String c s' => String (if Ascii.eqb c a then b else c) (replace a b s')
  end.

(** The truth value of a string ([if s:]). *)
Definition truthy (s : string) : bool :=
  match s with EmptyString => false | _ => true end.

(** [sep.join(l)] for a one-character [sep] *)
Fixpoint join (sep : ascii) (l : list string) : string :=
  match l with
  | [] => EmptyString
  | [x] => x
  | x :: l' => x +:+ String sep (join sep l')
  end.

End PyStr.

(** ** The [re] pattern of the cache policy

    [re.match] tries the pattern at position 0 only and succeeds as soon as
    some prefix of the subject matches; a leading [^] is then redundant.
    The patterns used by the script are sequences of one-character classes
    with the postfix operators [?] and [+]; [match_here] is the
    backtracking matcher for such sequences (greedy first, then shorter). *)

Module Re.

Inductive cclass : Type :=
| Lit (c : ascii)      (* a literal ASCII character, also an escaped one: [\.] *)
| Digit.               (* [\d] *)

(** The value of a continuation byte [10xxxxxx]. *)
Definition continuation (a : ascii) : option N :=
  let b := N_of_ascii a in
  if (N.leb 128 b && N.ltb b 192)%bool then Some (b - 128)%N else None.

(** The first code point of a UTF-8 string and what follows it. *)
Definition decode1 (s : string) : option (N * string) :=
  match s with
  | EmptyString => None
  | String a s1 =>
      let b := N_of_ascii a in
      if N.ltb b 128 then Some (b, s1)
      else if N.ltb b 192 then None
      else if N.ltb b 224 then
        match s1 with
        | String a1 s2 =>
            match continuation a1 with
            | Some c1 => Some ((b - 192) * 64 + c1, s2)%N
            | None => None
            end
        | EmptyString => None
        end
      else if N.ltb b 240 then
        match s1 with
        | String a1 (String a2 s3) =>
            match continuation a1, continuation a2 with
            | Some c1, Some c2 => Some ((b - 224) * 4096 + c1 * 64 + c2, s3)%N
            | _, _ => None
            end
        | _ => None
        end
      else if N.ltb b 248 then
        match s1 with
        | String a1 (String a2 (String a3 s4)) =>
            match continuation a1, continuation a2, continuation a3 with
            | Some c1, Some c2, Some c3 =>
                Some ((b - 240) * 262144 + c1 * 4096 + c2 * 64 + c3, s4)%N
            | _, _, _ => None
            end
        | _ => None
        end
      else None
  end.

(** The code point of the digit zero of every block of decimal digits
    (general category Nd) of the Unicode Character Database 14.0, the one
    CPython 3.11 is built with; each block is ten consecutive code points,
    zero to nine.  Later versions of the database add blocks. *)
Definition decimal_zeros : list N :=
  [0x30; 0x660; 0x6f0; 0x7c0; 0x966; 0x9e6; 0xa66; 0xae6; 0xb66; 0xbe6;
   0xc66; 0xce6; 0xd66; 0xde6; 0xe50; 0xed0; 0xf20; 0x1040; 0x1090; 0x17e0;
   0x1810; 0x1946; 0x19d0; 0x1a80; 0x1a90; 0x1b50; 0x1bb0; 0x1c40; 0x1c50;
   0xa620; 0xa8d0; 0xa900; 0xa9d0; 0xa9f0; 0xaa50; 0xabf0; 0xff10; 0x104a0;
   0x10d30; 0x11066; 0x110f0; 0x11136; 0x111d0; 0x112f0; 0x11450; 0x114d0;
   0x11650; 0x116c0; 0x11730; 0x118e0; 0x11950; 0x11c50; 0x11d50; 0x11da0;
   0x16a60; 0x16ac0; 0x16b50; 0x1d7ce; 0x1d7d8; 0x1d7e2; 0x1d7ec; 0x1d7f6;
   0x1e140; 0x1e2f0; 0x1e950; 0x1fbf0]%N.

(** [Py_UNICODE_ISDECIMAL], the test behind [\d] in a [str] pattern. *)
Definition isdecimal (c : N) : bool :=
  existsb (fun z => N.leb z c && N.ltb c (z + 10))%bool%N decimal_zeros.

(** One character of the class at the head of [s]: what follows it. *)
Definition take (k : cclass) (s : string) : option string :=
  match k with
  | Lit c =>
      match s with
      | String a s' => if Ascii.eqb a c then Some s' else None
      | EmptyString => None
      end
  | Digit =>
      match decode1 s with
      | Some (c, s') => if isdecimal c then Some s' else None
      | None => None
      end
  end.

Inductive item : Type :=
| One (k : cclass)     (* k  *)
| Opt (k : cclass)     (* k? *)
| Many1 (k : cclass).  (* k+ *)

(** [k+] followed by the continuation [cont]; every character takes at
    least one byte, so [fuel] above the length of [s] is never used up. *)
Fixpoint many1_upto (fuel : nat) (k : cclass) (cont : string -> bool)
    (s : string) : bool :=
  match fuel with
  | O => false
  | S fuel' =>
      match take k s with
      | Some s' => many1_upto fuel' k cont s' || cont s'
      | None => false
      end
  end.

Definition many1 (k : cclass) (cont : string -> bool) (s : string) : bool :=
  many1_upto (String.length s) k cont s.

Fixpoint match_here (p : list item) (s : string) {struct p} : bool :=
  match p with
  | [] => true
  | One k :: r =>
      match take k s with
      | Some s' => match_here r s'
      | None => false
      end
  | Opt k :: r =>
      match take k s with
      | Some s' => match_here r s'
      | None => false
      end || match_here r s
  | Many1 k :: r => many1 k (match_here r) s
  end.

(** [bool(re.match(p, s))] *)
Definition re_match (p : list item) (s : string) : bool := match_here p s.

End Re.

(** ** Exceptions, results, the world *)

Inductive exn : Type :=
| ValueError (msg : string)
| FileNotFoundError (msg : string)
| OtherException (msg : string).   (* any other subclass of [Exception] *)

(** [str(e)] *)
Definition exn_str (e : exn) : string :=
  match e with
  | ValueError m | FileNotFoundError m | OtherException m => m
  end.

Inductive result (A : Type) : Type :=
| Ok (a : A)
| Raise (e : exn).
Arguments Ok {A} a.
Arguments Raise {A} e.

(** A value of a JSON object as the scripts go on to use it: a [str], or
    any other object ([None], a number, a bool, a list, a dict), of which
    only [str(v)] and the name of its type can be observed. *)
Inductive pyval : Type :=
| PStr (s : string)
| PObj (str type_name : string).

(** [f'{v}'] *)
Definition py_format (v : pyval) : string :=
  match v with
  | PStr s => s
  | PObj str _ => str
  end.

(** The decoded body of a release lookup: a JSON object with its members,
    or any other JSON value, on which the subscript [['tag_name']]
    raises. *)
Inductive json : Type :=
| JObject (members : gmap string pyval)
| JOther.

Record response : Type := {
  status_code : Z;
  json_body : option json      (* [None]: [response.json()] raises *)
}.

Inductive http_outcome : Type :=
| HttpRaises (e : exn)         (* connection error, timeout, ... *)
| HttpReturns (r : response).

Inductive run_outcome : Type :=
| Completed (returncode : Z)
| RunRaises (e : exn).

(** External effects, in the order they happen. *)
Inductive event : Type :=
| EvPrint (msg : string)
| EvHttpGet (url : string)
| EvMkdir (p : string)
| EvUnlink (p : string)
| EvRetrieve (url dir fname : string)
| EvRun (argv : list string).

Record World : Type := {
  files : gmap string string;  (* regular files: path -> content *)
  trace : list event
}.

(** What the scripts call but do not define. *)
Class Env : Type := {
  (** [requests.get(url, timeout=5)] *)
  http_get : string -> http_outcome;
  (** [Path.home()] *)
  home : string;
  (** [dir / name] of pathlib *)
  path_join : string -> string -> string;
  (** [p.mkdir(parents=True, exist_ok=True)]: the exception, if any *)
  mkdir : string -> gmap string string -> option exn;
  (** [pooch.retrieve(url, known_hash=None, path=dir, fname=fname)] *)
  pooch_retrieve :
    string -> string -> string -> gmap string string ->
    result string * gmap string string;
  (** [subprocess.run(argv)] *)
  subprocess_run : list string -> gmap string string -> run_outcome
}.

(** ** State and exception monad *)

Definition M (A : Type) : Type := World -> result A * World.

Definition ret {A} (a : A) : M A := fun w => (Ok a, w).

Definition raise {A} (e : exn) : M A := fun w => (Raise e, w).

Definition bind {A B} (c : M A) (k : A -> M B) : M B :=
  fun w =>
    match c w with
    | (Ok a, w') => k a w'
    | (Raise e, w') => (Raise e, w')
    end.

(** [try: body except Exception as e: handler e] *)
Definition try_except {A} (body : M A) (handler : exn -> M A) : M A :=
  fun w =>
    match body w with
    | (Ok a, w') => (Ok a, w')
    | (Raise e, w') => handler e w'
    end.

Notation "x <- c ;; k" := (bind c (fun x => k))
  (at level 100, c at next level, right associativity).
Notation "c ;; k" := (bind c (fun _ => k))
  (at level 100, right associativity).

Definition emit (e : event) : M unit :=
  fun w => (Ok tt, {| files := files w; trace := trace w ++ [e] |}).

Definition print (msg : string) : M unit := emit (EvPrint msg).

(** [p.exists()] *)
Definition path_exists (p : string) : M bool :=
  fun w => (Ok (bool_decide (is_Some (files w !! p))), w).

(** [p.unlink()] *)
Definition unlink (p : string) : M unit :=
  emit (EvUnlink p) ;;
  fun w =>
    match files w !! p with
    | Some _ => (Ok tt, {| files := delete p (files w); trace := trace w |})
    | None => (Raise (FileNotFoundError p), w)
    end.

(** ** copier_wrapper.py *)

Module Wrapper.
Section Program.
Context {E : Env}.
Import PyStr.

(** [requests.get(url, timeout=5)] *)
Definition requests_get (url : string) : M response :=
  emit (EvHttpGet url) ;;
  match http_get url with
  | HttpRaises e => raise e
  | HttpReturns r => ret r
  end.

(** [response.json()] *)
Definition response_json (r : response) : M json :=
  match json_body r with
  | Some j => ret j
  | None => raise (ValueError "Expecting value")
  end.

(** [j[key]] *)
Definition getitem (j : json) (key : string) : M pyval :=
  match j with
  | JObject d =>
      match d !! key with
      | Some v => ret v
      | None => raise (OtherException key)                   (* KeyError *)
      end
  | JOther => raise (OtherException "object is not subscriptable")
  end.

(** [f'https://api.github.com/repos/{owner}/{repo}/releases/latest'] *)
Definition releases_url (owner repo : string) : string :=
  "https://api.github.com/repos/" +:+ owner +:+ "/" +:+ repo
  +:+ "/releases/latest".

(** The [try] block answers [Some tag] when it returns and [None] when
    control falls through to the statement after it. *)
Definition get_stable_ref (owner repo : string) : M pyval :=
  let url := releases_url owner repo in
  r <- try_except
         (response <- requests_get url ;;
          if status_code response =? 200 then
            j <- response_json response ;;
            tag <- getitem j "tag_name" ;;
            ret (Some tag)
          else ret None)
         (fun _ => ret None) ;;
  match r with
  | Some tag => ret tag
  | None => ret (PStr "master")
  end.

Definition invalid_format (path expected : string) : exn :=
  ValueError ("Invalid GitHub path format: " +:+ path +:+ ". Expected: "
              +:+ expected).

Definition parse_github_path (path : string)
  : M (string * string * pyval * string) :=
  if negb (startswith path "gh:") then
    raise (invalid_format path "gh:owner/repo@ref/filepath")
  else
    let path_without_prefix := drop 3 path in
    if contains "@" path_without_prefix then
      match splitn "@" 1 path_without_prefix with
      | [repo_part; rest] =>
          match split "/" repo_part with
          | [owner; repo] =>
              match splitn "/" 1 rest with
              | [ref; filepath] => ret (owner, repo, PStr ref, filepath)
              | _ => raise (invalid_format path "gh:owner/repo@ref/filepath")
              end
          | _ => raise (invalid_format path "gh:owner/repo@ref/filepath")
          end
      | _ => raise (ValueError "not enough values to unpack")
      end
    else
      match splitn "/" 2 path_without_prefix with
      | [owner; repo; filepath] =>
          ref <- get_stable_ref owner repo ;;
          ret (owner, repo, ref, filepath)
      | _ => raise (invalid_format path "gh:owner/repo/filepath")
      end.

(** [r'^v?\d+\.\d+'] *)
Definition release_tag_pattern : list Re.item :=
  [Re.Opt (Re.Lit "v"); Re.Many1 Re.Digit; Re.One (Re.Lit ".");
   Re.Many1 Re.Digit].

(** [bool(re.match(r'^v?\d+\.\d+', ref))] for a [str] *)
Definition is_release_tag (ref : string) : bool :=
  Re.re_match release_tag_pattern ref.

(** [bool(re.match(r'^v?\d+\.\d+', ref))] for any value: [re.match]
    raises a [TypeError] when the subject is not a [str]. *)
Definition match_release_tag (ref : pyval) : M bool :=
  match ref with
  | PStr s => ret (is_release_tag s)
  | PObj _ type_name =>
      raise (OtherException ("expected string or bytes-like object, got '"
                             +:+ type_name +:+ "'"))
  end.

(** [f'https://raw.githubusercontent.com/{owner}/{repo}/refs/heads/{ref}/{filepath}'] *)
Definition raw_url (owner repo ref filepath : string) : string :=
  "https://raw.githubusercontent.com/" +:+ owner +:+ "/" +:+ repo
  +:+ "/refs/heads/" +:+ ref +:+ "/" +:+ filepath.

(** [f'{ref}_{filepath.replace("/", "_")}'] *)
Definition cache_filename (ref filepath : string) : string :=
  ref +:+ "_" +:+ replace "/" "_" filepath.

(** [pooch.retrieve(url=url, known_hash=None, path=dir, fname=fname)] *)
Definition retrieve (url dir fname : string) : M string :=
  emit (EvRetrieve url dir fname) ;;
  fun w =>
    let '(r, fs) := pooch_retrieve url dir fname (files w) in
    (r, {| files := fs; trace := trace w |}).

(** [f'Refreshing {filepath} from {owner}/{repo} (branch: {ref})'] *)
Definition refreshing_msg (owner repo ref filepath : string) : string :=
  "Refreshing " +:+ filepath +:+ " from " +:+ owner +:+ "/" +:+ repo
  +:+ " (branch: " +:+ ref +:+ ")".

(** [f'Using cached {filepath} from {owner}/{repo} (release tag: {ref})'] *)
Definition using_cached_msg (owner repo ref filepath : string) : string :=
  "Using cached " +:+ filepath +:+ " from " +:+ owner +:+ "/" +:+ repo
  +:+ " (release tag: " +:+ ref +:+ ")".

Definition fetch_github_file (path cache_dir : string) : M string :=
  p <- parse_github_path path ;;
  let '(owner, repo, ref, filepath) := p in
  let url := raw_url owner repo (py_format ref) filepath in
  let fname := cache_filename (py_format ref) filepath in
  let cache_file_path := path_join cache_dir fname in
  release <- match_release_tag ref ;;
  stale <- (if negb release then path_exists cache_file_path else ret false) ;;
  (if stale then
     print (refreshing_msg owner repo (py_format ref) filepath) ;;
     unlink cache_file_path
   else
     cached <- (if release then path_exists cache_file_path else ret false) ;;
     if cached then print (using_cached_msg owner repo (py_format ref) filepath)
     else ret tt) ;;
  file_path <- retrieve url cache_dir fname ;;
  ret file_path.

(** The [while] loop of [main] over [sys.argv[1:]]: the arguments left to
    read, and the two accumulators.  [None] is the early [return 1] of a
    [--gh-data] without a value. *)
Fixpoint scan_args (args copier_args : list string)
    (github_data : option string)
  : option (list string * option string) :=
  match args with
  | [] => Some (copier_args, github_data)
  | arg :: rest =>
      if String.eqb arg "--gh-data" then
        match rest with
        | value :: rest' => scan_args rest' copier_args (Some value)
        | [] => None
        end
      else scan_args rest (copier_args ++ [arg]) github_data
  end.

(** [cache_dir.mkdir(parents=True, exist_ok=True)] *)
Definition mkdir_parents (p : string) : M unit :=
  emit (EvMkdir p) ;;
  fun w =>
    match mkdir p (files w) with
    | None => (Ok tt, w)
    | Some e => (Raise e, w)
    end.

(** [subprocess.run(argv).returncode] *)
Definition run (argv : list string) : M Z :=
  emit (EvRun argv) ;;
  fun w =>
    match subprocess_run argv (files w) with
    | Completed rc => (Ok rc, w)
    | RunRaises e => (Raise e, w)
    end.

Definition usage_msg : string := "❌ Error: --gh-data requires a value".

(** [f'❌ Failed to fetch {github_data}: {e}'] *)
Definition failed_msg (github_data : string) (e : exn) : string :=
  "❌ Failed to fetch " +:+ github_data +:+ ": " +:+ exn_str e.

Definition not_found_msg : string :=
  "❌ Error: 'copier' command not found. Please install copier.".

(** [f'❌ Error running copier: {e}'] *)
Definition run_error_msg (e : exn) : string :=
  "❌ Error running copier: " +:+ exn_str e.

(** The block [if github_data: ...] of [main]: [inl args] carries on with
    the arguments for copier, [inr code] is an early [return code]. *)
Definition process_github_data (copier_args : list string)
    (github_data : option string) : M (list string + Z) :=
  match github_data with
  | Some gd =>
      if truthy gd then
        if startswith gd "gh:" then
          try_except
            (p <- parse_github_path gd ;;
             let '(owner, repo, ref, _) := p in
             let cache_dir :=
               path_join (path_join (path_join home ".cache") owner) repo in
             mkdir_parents cache_dir ;;
             local_file <- fetch_github_file gd cache_dir ;;
             print "" ;;
             ret (inl (copier_args ++ ["--data-file"; local_file])))
            (fun e => print (failed_msg gd e) ;; ret (inr 1))
        else ret (inl (copier_args ++ ["--data-file"; gd]))
      else ret (inl copier_args)
  | None => ret (inl copier_args)
  end.

(** The value [main()] returns, which [sys.exit] receives. *)
Definition main (argv : list string) : M Z :=
  match scan_args (tl argv) [] None with
  | None => print usage_msg ;; ret 1
  | Some (copier_args, github_data) =>
      r <- process_github_data copier_args github_data ;;
      match r with
      | inr code => ret code
      | inl copier_args' =>
          try_except
            (run ("copier" :: copier_args'))
            (fun e =>
               match e with
               | FileNotFoundError _ => print not_found_msg ;; ret 1
               | _ => print (run_error_msg e) ;; ret 1
               end)
      end
  end.

End Program.
End Wrapper.

(** ** copier_update.py *)

Module Update.
Section Program.
Context {E : Env}.
Import PyStr.

Definition DEFAULT_BRANCH : string := "master".

Definition parse_github_url (url : string)
  : result (string * string * string) :=
  if negb (startswith url "gh:") then
    Raise (ValueError ("Invalid GitHub URL format: " +:+ url
                       +:+ ". Expected: gh:owner/repo/path"))
  else
    match splitn "/" 2 (drop 3 url) with
    | [owner; repo; path] => Ok (owner +:+ "/" +:+ repo, DEFAULT_BRANCH, path)
    | _ => Raise (ValueError ("Invalid GitHub URL format: " +:+ url
                              +:+ ". Expected: gh:owner/repo/path"))
    end.

(** [f"{base_url}/{filepath}"] with
    [base_url = f"https://raw.githubusercontent.com/{repo}/refs/heads/{branch}"] *)
Definition raw_url (repo branch filepath : string) : string :=
  let base_url := "https://raw.githubusercontent.com/" +:+ repo
                  +:+ "/refs/heads/" +:+ branch in
  base_url +:+ "/" +:+ filepath.

(** [filepath.replace("/", "_")] *)
Definition cache_filename (filepath : string) : string :=
  replace "/" "_" filepath.

Definition fetch_project_data (repo branch filepath cache_dir : string)
  : M string :=
  let url := raw_url repo branch filepath in
  let fname := cache_filename filepath in
  file_path <- Wrapper.retrieve url cache_dir fname ;;
  print ("Copied " +:+ filepath +:+ " from " +:+ repo) ;;
  ret file_path.

End Program.
End Update.

(** ** copier_update.py: the entry point *)

Module UpdateMain.

(** [args = parser.parse_args()]: the three options of the command line. *)
Record Namespace : Type := {
  vcs_ref : string;
  answers_file : string;
  data_file : string
}.

(** What the entry point calls beyond [Env]. *)
Class Lib : Type := {
  (** [str(Path(s))] *)
  path_str : string -> string;
  (** [Path.cwd()] *)
  cwd : string;
  (** [copier.run_update(dst_path, vcs_ref, answers_file, data_file,
      overwrite)]: the exception it raises, if any, and the files it
      leaves *)
  run_update :
    string -> string -> string -> string -> bool -> gmap string string ->
    option exn * gmap string string
}.

Section Program.
Context {E : Env} {L : Lib}.
Import PyStr.

(** The newline of the [\n] escapes. *)
Definition nl : string := String (ascii_of_nat 10) EmptyString.

Definition updating_msg : string :=
  "üì• Updating project from copier template...".

Definition running_msg : string :=
  "üîÑ Running copier update...".

Definition updated_msg : string :=
  nl +:+ "‚úÖ Project updated successfully from template!".

(** [f"\n... Update failed: {e}"] *)
Definition update_failed_msg (e : exn) : string :=
  nl +:+ "‚ùå Update failed: " +:+ exn_str e.

(** [run_update(dst_path=..., vcs_ref=..., answers_file=..., data_file=...,
    overwrite=...)]: a library call in the same process, seen through the
    files it leaves. *)
Definition update (dst_path vcs answers data : string) (overwrite : bool)
  : M unit :=
  fun w =>
    match run_update dst_path vcs answers data overwrite (files w) with
    | (None, fs) => (Ok tt, {| files := fs; trace := trace w |})
    | (Some e, fs) => (Raise e, {| files := fs; trace := trace w |})
    end.

(** The data file to hand to the update: fetched for a [gh:] reference,
    checked for existence otherwise. *)
Definition locate_data_file (args : Namespace) : M string :=
  if startswith (data_file args) "gh:" then
    match Update.parse_github_url (data_file args) with
    | Raise e => raise e
    | Ok (repo, branch, filepath) =>
        print ("   Data source: " +:+ repo +:+ "/" +:+ filepath +:+ "@"
               +:+ branch) ;;
        let cache_dir := path_join (path_join home ".cache") repo in
        Wrapper.mkdir_parents cache_dir ;;
        file <- Update.fetch_project_data repo branch filepath cache_dir ;;
        print "" ;;
        ret file
    end
  else
    let file := path_str (data_file args) in
    print ("   Data source: " +:+ file) ;;
    present <- path_exists file ;;
    if negb present then
      raise (FileNotFoundError ("Data file not found: " +:+ file))
    else ret file.

(** [main()] after [parse_args]: the value it returns. *)
Definition main (args : Namespace) : M Z :=
  print updating_msg ;;
  print ("   VCS reference: " +:+ vcs_ref args) ;;
  print ("   Answers file: " +:+ answers_file args +:+ nl) ;;
  try_except
    (file <- locate_data_file args ;;
     print running_msg ;;
     update cwd (vcs_ref args) (answers_file args) file true ;;
     print updated_msg ;;
     ret 0)
    (fun e => print (update_failed_msg e) ;; ret 1).

End Program.
End UpdateMain.

(** ** Reference environment and spec-side notions *)

Module Demo.

Definition join (d f : string) : string := d +:+ "/" +:+ f.

(** The retrieval helper without a known hash: a file already present
    under the target name is returned as it is; otherwise the content
    served for [url] is written there; no content served is a failure. *)
Definition pooch (raw : string -> option string) (url dir fname : string)
    (fs : gmap string string) : result string * gmap string string :=
  match fs !! join dir fname with
  | Some _ => (Ok (join dir fname), fs)
  | None =>
      match raw url with
      | Some c => (Ok (join dir fname), <[join dir fname := c]> fs)
      | None => (Raise (OtherException url), fs)
      end
  end.

Definition env (api : string -> http_outcome) (raw : string -> option string)
    (copier : run_outcome) : Env :=
  {| http_get := api;
     home := "/home/user";
     path_join := join;
     mkdir := fun _ _ => None;
     pooch_retrieve := pooch raw;
     subprocess_run := fun _ _ => copier |}.

(** No release metadata can be reached. *)
Definition offline (url : string) : http_outcome :=
  HttpRaises (OtherException "ConnectionError").

(** The latest release of every repository is [tag]. *)
Definition released (tag : string) (url : string) : http_outcome :=
  HttpReturns {| status_code := 200;
                 json_body := Some (JObject {[ "tag_name" := PStr tag ]}) |}.

(** A reply with status 200 whose [tag_name] is [null]. *)
Definition null_tag (url : string) : http_outcome :=
  HttpReturns {| status_code := 200;
                 json_body :=
                   Some (JObject {[ "tag_name" := PObj "None" "NoneType" ]}) |}.

(** Every raw file is served with the same content. *)
Definition serve (url : string) : option string := Some "name: demo".

Definition plain : Env := env offline serve (Completed 0).

(** The copier executable is there but cannot be started. *)
Definition unlaunchable : Env :=
  env offline serve (RunRaises (OtherException "Permission denied")).

Definition w0 : World := {| files := ∅; trace := [] |}.

(** A cache that already holds [content] under [path]. *)
Definition cached (path content : string) : World :=
  {| files := {[ path := content ]}; trace := [] |}.

Definition cache_dir : string := "/home/user/.cache/acme/widgets".

(** An update that succeeds and writes the answers file. *)
Definition lib : UpdateMain.Lib :=
  {| UpdateMain.path_str := fun s => s;
     UpdateMain.cwd := "/work/project";
     UpdateMain.run_update :=
       fun dst vcs answers data overwrite fs =>
         (None, <[join dst answers := data]> fs) |}.

End Demo.

(** The world after the events [evs]. *)
Definition after (evs : list event) (w : World) : World :=
  {| files := files w; trace := trace w ++ evs |}.

(** The requests made to the retrieval helper, oldest first. *)
Fixpoint retrieve_requests (tr : list event) : list (string * string * string) :=
  match tr with
  | [] => []
  | EvRetrieve url dir fname :: tr' => (url, dir, fname) :: retrieve_requests tr'
  | _ :: tr' => retrieve_requests tr'
  end.


(** No file is removed by the events [tr]. *)
Definition no_unlink (tr : list event) : Prop :=
  forall p, ~ In (EvUnlink p) tr.

(** No request leaves the machine during the events [tr]. *)
Fixpoint no_network (tr : list event) : bool :=
  match tr with
  | [] => true
  | EvHttpGet _ :: _ | EvRetrieve _ _ _ :: _ => false
  | _ :: tr' => no_network tr'
  end.

(** The retrieval helper's own reuse of a file that is already present
    under the target name (section 4.3 of the specification delegates this
    to the helper). *)
Definition reuses_present_file (E : Env) : Prop :=
  forall url dir fname fs,
    is_Some (fs !! path_join dir fname) ->
    pooch_retrieve url dir fname fs = (Ok (path_join dir fname), fs).

(** [d] is one digit: the encoding of one code point that is a decimal
    digit. *)
Definition digit_char (d : string) : Prop :=
  exists c, Re.decode1 d = Some (c, "") /\ Re.isdecimal c = true.

(** One or more digits. *)
Inductive digit_run : string -> Prop :=
| run_one d : digit_char d -> digit_run d
| run_more d ds : digit_char d -> digit_run ds -> digit_run (d +:+ ds).

(** The words of the classification rule: an optional leading letter [v],
    one or more digits, a dot, one or more digits, at the start of the
    token. *)
Definition looks_like_version (t : string) : Prop :=
  exists v major minor rest,
    t = v +:+ major +:+ "." +:+ minor +:+ rest /\
    (v = "" \/ v = "v") /\
    digit_run major /\ digit_run minor.

(** A release lookup answered with status 200 and a JSON object that has a
    [tag_name] member; [tag] is the value of the member, whatever its
    type. *)
Definition release_found (o : http_outcome) (tag : pyval) : Prop :=
  exists r d,
    o = HttpReturns r /\ status_code r = 200 /\
    json_body r = Some (JObject d) /\ d !! "tag_name" = Some tag.

(** The failures of a release lookup: the request raises (network error,
    timeout), the status is not 200, or the body is malformed (not JSON,
    not an object, or an object without [tag_name]). *)
Definition lookup_failed (o : http_outcome) : Prop :=
  (exists e, o = HttpRaises e) \/
  (exists r, o = HttpReturns r /\
     (status_code r <> 200 \/
      json_body r = None \/
      json_body r = Some JOther \/
      exists d, json_body r = Some (JObject d) /\ d !! "tag_name" = None)).

(** [s] consists of exactly two segments separated by one [/]. *)
Definition two_segments (s owner repo : string) : Prop :=
  s = owner +:+ "/" +:+ repo /\
  PyStr.contains "/" owner = false /\ PyStr.contains "/" repo = false.

(** * Properties *)

(** ** String primitives *)

Section PyStrFacts.
Import PyStr.

Lemma eqb_false_swap (a c : ascii) : Ascii.eqb a c = false -> a <> c.
Proof. intros H ->. rewrite Ascii.eqb_refl in H. discriminate. Qed.

Lemma append_assoc (a b c : string) : (a +:+ b) +:+ c = a +:+ (b +:+ c).
Proof. induction a as [|x a IH]; simpl; [reflexivity | now rewrite IH]. Qed.

Lemma append_empty_r (a : string) : a +:+ "" = a.
Proof. induction a as [|x a IH]; simpl; [reflexivity | now rewrite IH]. Qed.

Lemma append_length (a b : string) :
  String.length (a +:+ b) = (String.length a + String.length b)%nat.
Proof. induction a as [|x a IH]; simpl; [reflexivity | now rewrite IH]. Qed.

(** Cancellation of a common suffix. *)
Lemma append_inj_l (a b t : string) : a +:+ t = b +:+ t -> a = b.
Proof.
  revert b. induction a as [|x a IH]; intros [|y b] H; simpl in H.
  - reflexivity.
  - apply (f_equal String.length) in H. simpl in H.
    rewrite append_length in H. lia.
  - apply (f_equal String.length) in H. simpl in H.
    rewrite append_length in H. lia.
  - injection H as -> H. f_equal. now apply IH.
Qed.

Lemma startswith_append (p t : string) : startswith (p +:+ t) p = true.
Proof.
  induction p as [|x p IH]; simpl; [reflexivity|].
  now rewrite Ascii.eqb_refl, IH.
Qed.

Lemma startswith_inv (s p : string) :
  startswith s p = true -> s = p +:+ drop (String.length p) s.
Proof.
  revert s. induction p as [|x p IH]; intros s H; simpl in *; [reflexivity|].
  destruct s as [|a s]; [discriminate|].
  apply andb_prop in H as [Ha Hs]. apply Ascii.eqb_eq in Ha as ->.
  f_equal. now apply IH.
Qed.

Lemma contains_append (c : ascii) (a b : string) :
  contains c (a +:+ b) = contains c a || contains c b.
Proof.
  induction a as [|x a IH]; simpl; [reflexivity|].
  rewrite IH. now rewrite orb_assoc.
Qed.

Lemma contains_replace (a b : ascii) (s : string) :
  a <> b -> contains a (replace a b s) = false.
Proof.
  intros Hab. induction s as [|c s IH]; simpl; [reflexivity|].
  rewrite IH, orb_false_r.
  destruct (Ascii.eqb c a) eqn:Hc.
  - apply Ascii.eqb_neq. congruence.
  - exact Hc.
Qed.

Lemma splitn_0 (c : ascii) (s : string) : splitn c 0 s = [s].
Proof. destruct s; reflexivity. Qed.

Lemma splitn_not_nil (c : ascii) (n : nat) (s : string) : splitn c n s <> [].
Proof.
  revert n. induction s as [|a s IH]; intros [|n]; simpl; try discriminate.
  destruct (Ascii.eqb a c); [discriminate|].
  destruct (splitn c (S n) s); discriminate.
Qed.

Lemma split_not_nil (c : ascii) (s : string) : split c s <> [].
Proof.
  induction s as [|a s IH]; simpl; [discriminate|].
  destruct (Ascii.eqb a c); [discriminate|].
  destruct (split c s); discriminate.
Qed.

(** Splitting loses nothing: joining the pieces gives the string back. *)
Lemma join_splitn (c : ascii) (n : nat) (s : string) :
  join c (splitn c n s) = s.
Proof.
  revert n. induction s as [|a s IH]; intros [|n]; simpl; try reflexivity.
  destruct (Ascii.eqb a c) eqn:Hac.
  - apply Ascii.eqb_eq in Hac as ->.
    specialize (IH n). pose proof (splitn_not_nil c n s) as Hne.
    destruct (splitn c n s) as [|h t]; [contradiction|].
    simpl. simpl in IH. now rewrite IH.
  - specialize (IH (S n)). pose proof (splitn_not_nil c (S n) s) as Hne.
    destruct (splitn c (S n) s) as [|h t]; [contradiction|].
    destruct t as [|h' t]; simpl in *; now rewrite IH.
Qed.

Lemma join_split (c : ascii) (s : string) : join c (split c s) = s.
Proof.
  induction s as [|a s IH]; simpl; [reflexivity|].
  pose proof (split_not_nil c s) as Hne.
  destruct (Ascii.eqb a c) eqn:Hac.
  - apply Ascii.eqb_eq in Hac as ->.
    destruct (split c s) as [|h t]; [contradiction|].
    simpl. simpl in IH. now rewrite IH.
  - destruct (split c s) as [|h t]; [contradiction|].
    destruct t as [|h' t]; simpl in *; now rewrite IH.
Qed.

(** No piece of [split] contains the separator. *)
Lemma split_pieces (c : ascii) (s : string) :
  Forall (fun x => contains c x = false) (split c s).
Proof.
  induction s as [|a s IH]; simpl.
  - constructor; [reflexivity | constructor].
  - destruct (Ascii.eqb a c) eqn:Hac.
    + constructor; [reflexivity | exact IH].
    + destruct (split c s) as [|h t].
      * constructor; [simpl; now rewrite Hac | constructor].
      * inversion IH as [|? ? Hh Ht]; subst.
        constructor; [simpl; now rewrite Hac, Hh | exact Ht].
Qed.

(** No piece of [splitn] but the last contains the separator. *)
Lemma splitn_pieces (c : ascii) (n : nat) (s : string) :
  Forall (fun x => contains c x = false) (removelast (splitn c n s)).
Proof.
  revert n. induction s as [|a s IH]; intros [|n]; simpl; try constructor.
  destruct (Ascii.eqb a c) eqn:Hac.
  - pose proof (splitn_not_nil c n s) as Hne. specialize (IH n).
    destruct (splitn c n s) as [|h t]; [contradiction|].
    constructor; [reflexivity | exact IH].
  - pose proof (splitn_not_nil c (S n) s) as Hne. specialize (IH (S n)).
    destruct (splitn c (S n) s) as [|h t]; [contradiction|].
    destruct t as [|h' t]; [constructor|].
    inversion IH as [|? ? Hh Ht]; subst.
    constructor; [simpl; now rewrite Hac, Hh | exact Ht].
Qed.

Lemma splitn_cut (c : ascii) (n : nat) (h t : string) :
  contains c h = false ->
  splitn c (S n) (h +:+ String c t) = h :: splitn c n t.
Proof.
  intros Hh. induction h as [|a h IH]; simpl in *.
  - now rewrite Ascii.eqb_refl.
  - apply orb_false_elim in Hh as [Hac Hh].
    rewrite Hac, (IH Hh). reflexivity.
Qed.

Lemma splitn_whole (c : ascii) (n : nat) (s : string) :
  contains c s = false -> splitn c n s = [s].
Proof.
  intros Hs. revert n. induction s as [|a s IH]; intros [|n]; simpl in *;
    try reflexivity.
  apply orb_false_elim in Hs as [Hac Hs].
  now rewrite Hac, (IH Hs).
Qed.

Lemma split_cut (c : ascii) (h t : string) :
  contains c h = false ->
  split c (h +:+ String c t) = h :: split c t.
Proof.
  intros Hh. induction h as [|a h IH]; simpl in *.
  - now rewrite Ascii.eqb_refl.
  - apply orb_false_elim in Hh as [Hac Hh].
    rewrite Hac, (IH Hh). reflexivity.
Qed.

Lemma split_whole (c : ascii) (s : string) :
  contains c s = false -> split c s = [s].
Proof.
  intros Hs. induction s as [|a s IH]; simpl in *; [reflexivity|].
  apply orb_false_elim in Hs as [Hac Hs].
  now rewrite Hac, (IH Hs).
Qed.

(** [split] yields two pieces exactly on [owner/repo] shapes. *)
Lemma split_two (s a b : string) :
  split "/" s = [a; b] <-> two_segments s a b.
Proof.
  unfold two_segments. split.
  - intros H. pose proof (join_split "/" s) as Hj.
    pose proof (split_pieces "/" s) as Hp. rewrite H in Hj, Hp.
    simpl in Hj. symmetry in Hj.
    inversion Hp as [|? ? Ha Hp']. inversion Hp' as [|? ? Hb _]. auto.
  - intros (-> & Ha & Hb).
    change (a +:+ "/" +:+ b) with (a +:+ String "/" b).
    rewrite (split_cut _ _ _ Ha), (split_whole _ _ Hb). reflexivity.
Qed.

End PyStrFacts.

(** ** The reference parser *)

Section ParserFacts.
Context {E : Env}.
Import PyStr Wrapper.

(** With an [@] in it and none before it, the input is cut into the
    repository part and the rest at that [@]; no effect happens. *)
Lemma parse_at_unfold (repo_part rest : string) (w : World) :
  contains "@" repo_part = false ->
  parse_github_path ("gh:" +:+ repo_part +:+ "@" +:+ rest) w =
  match split "/" repo_part with
  | [owner; repo] =>
      match splitn "/" 1 rest with
      | [ref; filepath] => ret (owner, repo, PStr ref, filepath) w
      | _ => raise (invalid_format ("gh:" +:+ repo_part +:+ "@" +:+ rest)
                      "gh:owner/repo@ref/filepath") w
      end
  | _ => raise (invalid_format ("gh:" +:+ repo_part +:+ "@" +:+ rest)
                  "gh:owner/repo@ref/filepath") w
  end.
Proof.
  intros Hrp. unfold parse_github_path.
  change (startswith ("gh:" +:+ repo_part +:+ "@" +:+ rest) "gh:")
    with (startswith (repo_part +:+ "@" +:+ rest) "").
  change (drop 3 ("gh:" +:+ repo_part +:+ "@" +:+ rest))
    with (repo_part +:+ String "@" rest).
  cbn [startswith negb].
  rewrite contains_append. cbn [contains]. rewrite Ascii.eqb_refl.
  rewrite orb_true_r.
  rewrite (splitn_cut "@" 0 repo_part rest Hrp), splitn_0.
  destruct (split "/" repo_part) as [|o [|r [|x l]]]; try reflexivity.
  destruct (splitn "/" 1 rest) as [|a [|b [|c l]]]; reflexivity.
Qed.

Lemma splitn1_two (rest ref filepath : string) :
  splitn "/" 1 rest = [ref; filepath] <->
  rest = ref +:+ "/" +:+ filepath /\ contains "/" ref = false.
Proof.
  split.
  - intros H. pose proof (join_splitn "/" 1 rest) as Hj.
    pose proof (splitn_pieces "/" 1 rest) as Hp. rewrite H in Hj, Hp.
    simpl in Hj, Hp. inversion Hp as [|? ? Href _]. auto.
  - intros [-> Href].
    change (ref +:+ "/" +:+ filepath) with (ref +:+ String "/" filepath).
    now rewrite (splitn_cut "/" 0 ref filepath Href), splitn_0.
Qed.

(** Without a slash there is nothing to cut. *)
Lemma splitn1_one (rest : string) :
  contains "/" rest = false -> splitn "/" 1 rest = [rest].
Proof. apply splitn_whole. Qed.

(** With a slash, [split('/', 1)] always gives two pieces. *)
Lemma splitn1_some (rest : string) :
  contains "/" rest = true ->
  exists ref filepath, splitn "/" 1 rest = [ref; filepath].
Proof.
  induction rest as [|a s IH]; simpl; [discriminate|].
  destruct (Ascii.eqb a "/") eqn:Ha; simpl.
  - intros _. rewrite splitn_0. eauto.
  - intros Hs. destruct (IH Hs) as (r & f & ->). eauto.
Qed.

(** A successful parse of [gh:<repo_part>@<rest>] returns the segments. *)
Lemma parse_at_success (repo_part rest : string) (w : World)
    owner repo version filepath w' :
  contains "@" repo_part = false ->
  parse_github_path ("gh:" +:+ repo_part +:+ "@" +:+ rest) w
  = (Ok (owner, repo, version, filepath), w') ->
  exists ref,
    version = PStr ref /\
    two_segments repo_part owner repo /\
    rest = ref +:+ "/" +:+ filepath /\ contains "/" ref = false /\
    w' = w.
Proof.
  intros Hrp H. rewrite (parse_at_unfold _ _ _ Hrp) in H.
  destruct (split "/" repo_part) as [|o [|r [|x l]]] eqn:Hs;
    try discriminate.
  destruct (splitn "/" 1 rest) as [|a [|b [|c l]]] eqn:Hn;
    try discriminate.
  injection H as -> -> <- -> <-.
  apply split_two in Hs. apply splitn1_two in Hn as [Hrest Href]. eauto 6.
Qed.

End ParserFacts.

Section ExplicitRef.
Context {E : Env}.
Import PyStr Wrapper.

(** C1 (amended). For an input [gh:<repo_part>@<rest>] cut at its first
    [@]: when parsing succeeds the result is exactly
    [(owner, repo, ref, filepath)] with [repo_part = owner/repo] two
    slash-free segments, [ref] the portion of [rest] before its first
    slash and [filepath] everything after it; every such input does
    parse, empty segments included; and parsing fails with a
    [ValueError] whenever [repo_part] is not two slash-separated segments
    or [rest] contains no slash.  Nothing is observable but the result:
    the world is left as it was. *)
Theorem parse_github_path_explicit_ref
    (repo_part rest : string) (w : World) :
  contains "@" repo_part = false ->
  let path := "gh:" +:+ repo_part +:+ "@" +:+ rest in
  (forall owner repo version filepath w',
      parse_github_path path w = (Ok (owner, repo, version, filepath), w') ->
      exists ref,
        version = PStr ref /\
        two_segments repo_part owner repo /\
        rest = ref +:+ "/" +:+ filepath /\ contains "/" ref = false /\
        w' = w) /\
  (forall owner repo ref filepath,
      two_segments repo_part owner repo ->
      rest = ref +:+ "/" +:+ filepath -> contains "/" ref = false ->
      parse_github_path path w = (Ok (owner, repo, PStr ref, filepath), w)) /\
  ((~ exists owner repo, two_segments repo_part owner repo) \/
   contains "/" rest = false ->
   exists msg, parse_github_path path w = (Raise (ValueError msg), w)).
Proof.
  intros Hrp path. subst path.
  split; [|rewrite (parse_at_unfold _ _ _ Hrp); split].
  - intros owner repo version filepath w' H.
    exact (parse_at_success _ _ _ _ _ _ _ _ Hrp H).
  - intros owner repo ref filepath Hseg Hrest Href.
    apply split_two in Hseg. rewrite Hseg.
    assert (Hn : splitn "/" 1 rest = [ref; filepath])
      by (apply splitn1_two; auto).
    now rewrite Hn.
  - intros Hbad.
    destruct (split "/" repo_part) as [|o [|r [|x l]]] eqn:Hs;
      try (eexists; reflexivity).
    destruct Hbad as [Hno | Hrest].
    + exfalso. apply Hno. exists o, r. now apply split_two.
    + rewrite (splitn1_one _ Hrest). eexists; reflexivity.
Qed.

End ExplicitRef.

(** The parse of the documented example, and the rejection of a reference
    without a file path. *)
Lemma parse_github_path_explicit_ref_witness :
  @Wrapper.parse_github_path Demo.plain
    "gh:easyscience/peasy@master/docs/project.yaml" Demo.w0
  = (Ok ("easyscience", "peasy", PStr "master", "docs/project.yaml"), Demo.w0) /\
  exists msg,
    @Wrapper.parse_github_path Demo.plain "gh:easyscience/peasy@master" Demo.w0
    = (Raise (ValueError msg), Demo.w0).
Proof.
  split.
  - apply (proj1 (proj2 (@parse_github_path_explicit_ref Demo.plain
                           "easyscience/peasy" "master/docs/project.yaml"
                           Demo.w0 eq_refl))).
    + repeat split.
    + reflexivity.
    + reflexivity.
  - apply (proj2 (proj2 (@parse_github_path_explicit_ref Demo.plain
                           "easyscience/peasy" "master" Demo.w0 eq_refl))).
    right. reflexivity.
Defined.

(** C1 as stated fails: the part after [@] of [gh:a/b@/x] splits on its
    first slash into an empty version and [x], and the part after [@] of
    [gh:a/b@master/] into [master] and an empty file path; both parse. *)
Lemma parse_github_path_accepts_empty_parts :
  @Wrapper.parse_github_path Demo.plain "gh:a/b@/x" Demo.w0
  = (Ok ("a", "b", PStr "", "x"), Demo.w0) /\
  @Wrapper.parse_github_path Demo.plain "gh:a/b@master/" Demo.w0
  = (Ok ("a", "b", PStr "master", ""), Demo.w0).
Proof. split; reflexivity. Qed.

(** ** The cache-policy classifier *)

Section ClassifierFacts.
Import Re Wrapper.

Lemma append_nil_inv (a b : string) : a +:+ b = "" -> a = "" /\ b = "".
Proof. destruct a; simpl; [auto | discriminate]. Qed.

(** Decoding reads a prefix of one to four bytes and nothing beyond it. *)
Lemma decode1_inv (s r : string) (c : N) :
  decode1 s = Some (c, r) ->
  exists d, s = d +:+ r /\ d <> "" /\
            forall r', decode1 (d +:+ r') = Some (c, r').
Proof.
  unfold decode1. destruct s as [|a s1]; [discriminate|]. cbv zeta.
  destruct (N.ltb (N_of_ascii a) 128) eqn:E1.
  { intros [= <- <-]. exists (String a ""). repeat split; [discriminate|].
    intros r'. cbn [String.append]. now rewrite E1. }
  destruct (N.ltb (N_of_ascii a) 192) eqn:E2; [discriminate|].
  destruct (N.ltb (N_of_ascii a) 224) eqn:E3.
  { destruct s1 as [|a1 s2]; [discriminate|].
    destruct (continuation a1) as [c1|] eqn:C1; [|discriminate].
    intros [= <- <-]. exists (String a (String a1 "")).
    repeat split; [discriminate|].
    intros r'. cbn [String.append]. now rewrite E1, E2, E3, C1. }
  destruct (N.ltb (N_of_ascii a) 240) eqn:E4.
  { destruct s1 as [|a1 [|a2 s3]]; try discriminate.
    destruct (continuation a1) as [c1|] eqn:C1; [|discriminate].
    destruct (continuation a2) as [c2|] eqn:C2; [|discriminate].
    intros [= <- <-]. exists (String a (String a1 (String a2 ""))).
    repeat split; [discriminate|].
    intros r'. cbn [String.append]. now rewrite E1, E2, E3, E4, C1, C2. }
  destruct (N.ltb (N_of_ascii a) 248) eqn:E5; [|discriminate].
  destruct s1 as [|a1 [|a2 [|a3 s4]]]; try discriminate.
  destruct (continuation a1) as [c1|] eqn:C1; [|discriminate].
  destruct (continuation a2) as [c2|] eqn:C2; [|discriminate].
  destruct (continuation a3) as [c3|] eqn:C3; [|discriminate].
  intros [= <- <-]. exists (String a (String a1 (String a2 (String a3 "")))).
  repeat split; [discriminate|].
  intros r'. cbn [String.append].
  now rewrite E1, E2, E3, E4, E5, C1, C2, C3.
Qed.

Lemma digit_char_not_empty (d : string) : digit_char d -> d <> "".
Proof. intros (c & Hd & _) ->. discriminate. Qed.

(** [\d] at the head of [s]: exactly one digit is taken off. *)
Lemma take_digit (s r : string) :
  take Digit s = Some r <-> exists d, digit_char d /\ s = d +:+ r.
Proof.
  unfold take. split.
  - destruct (decode1 s) as [[c s']|] eqn:Hs; [|discriminate].
    destruct (isdecimal c) eqn:Hc; [|discriminate].
    intros [= ->]. destruct (decode1_inv _ _ _ Hs) as (d & -> & _ & Hd).
    exists d. split; [|reflexivity]. exists c.
    specialize (Hd ""). rewrite append_empty_r in Hd. auto.
  - intros (d & (c & Hd & Hc) & ->).
    destruct (decode1_inv _ _ _ Hd) as (d0 & Heq & _ & Hd0).
    rewrite append_empty_r in Heq. subst d0.
    now rewrite Hd0, Hc.
Qed.

Lemma digit_run_length (d : string) : digit_run d -> (1 <= String.length d)%nat.
Proof.
  assert (Hone : forall x, digit_char x -> (1 <= String.length x)%nat).
  { intros x Hx. apply digit_char_not_empty in Hx.
    destruct x; [contradiction | simpl; lia]. }
  induction 1 as [d Hd | d ds Hd _ _]; [auto|].
  rewrite append_length. specialize (Hone d Hd). lia.
Qed.

Lemma many1_upto_sound (fuel : nat) (cont : string -> bool) (s : string) :
  many1_upto fuel Digit cont s = true ->
  exists d rest, s = d +:+ rest /\ digit_run d /\ cont rest = true.
Proof.
  revert s. induction fuel as [|fuel IH]; intros s; cbn [many1_upto];
    [discriminate|].
  destruct (take Digit s) as [s'|] eqn:Ht; [|discriminate].
  apply take_digit in Ht as (d1 & Hd1 & ->).
  intros H. apply orb_prop in H as [H | H].
  - apply IH in H as (d & rest & -> & Hd & Hc).
    exists (d1 +:+ d), rest. rewrite append_assoc.
    split; [reflexivity|]. split; [now apply run_more | exact Hc].
  - exists d1, s'. split; [reflexivity|]. split; [now apply run_one | exact H].
Qed.

Lemma many1_upto_complete (cont : string -> bool) (d rest : string) :
  digit_run d -> cont rest = true ->
  forall fuel, (String.length d <= fuel)%nat ->
               many1_upto fuel Digit cont (d +:+ rest) = true.
Proof.
  intros Hd Hc. induction Hd as [d Hd | d ds Hd Hds IH]; intros fuel Hfuel.
  - pose proof (digit_run_length _ (run_one _ Hd)) as Hlen.
    destruct fuel as [|fuel]; [lia|]. cbn [many1_upto].
    rewrite (proj2 (take_digit (d +:+ rest) rest)) by eauto.
    rewrite Hc. apply orb_true_r.
  - pose proof (digit_run_length _ (run_one _ Hd)) as Hlen.
    rewrite append_length in Hfuel.
    destruct fuel as [|fuel]; [lia|]. cbn [many1_upto].
    rewrite append_assoc.
    rewrite (proj2 (take_digit (d +:+ ds +:+ rest) (ds +:+ rest))) by eauto.
    rewrite IH by lia. reflexivity.
Qed.

(** [\d+] consumes one or more digits, then the continuation accepts what
    is left; the fuel of [many1] is enough. *)
Lemma many1_digits (cont : string -> bool) (s : string) :
  many1 Digit cont s = true <->
  exists d rest, s = d +:+ rest /\ digit_run d /\ cont rest = true.
Proof.
  unfold many1. split; [apply many1_upto_sound|].
  intros (d & rest & -> & Hd & Hc).
  apply many1_upto_complete; auto. rewrite append_length. lia.
Qed.

(** What is left after the optional [v]: digits, a dot, digits. *)
Lemma version_core (s : string) :
  match_here [Many1 Digit; One (Lit "."); Many1 Digit] s = true <->
  exists major minor rest,
    s = major +:+ "." +:+ minor +:+ rest /\
    digit_run major /\ digit_run minor.
Proof.
  cbn [match_here]. rewrite many1_digits. split.
  - intros (major & r1 & -> & Hmaj & Hk).
    destruct r1 as [|a r2]; [discriminate|]. cbn [take] in Hk.
    destruct (Ascii.eqb_spec a ".") as [-> | Hne]; [|discriminate].
    apply many1_digits in Hk as (minor & rest & -> & Hmin & _).
    exists major, minor, rest. auto.
  - intros (major & minor & rest & -> & Hmaj & Hmin).
    exists major, ("." +:+ minor +:+ rest). repeat split; auto.
    cbn [String.append take]. rewrite Ascii.eqb_refl.
    apply many1_digits. exists minor, rest. auto.
Qed.

Lemma is_release_tag_iff (t : string) :
  is_release_tag t = true <-> looks_like_version t.
Proof.
  unfold is_release_tag, re_match, release_tag_pattern, looks_like_version.
  change (match_here (Opt (Lit "v") :: [Many1 Digit; One (Lit "."); Many1 Digit]) t)
    with (match take (Lit "v") t with
          | Some s' => match_here [Many1 Digit; One (Lit "."); Many1 Digit] s'
          | None => false
          end
          || match_here [Many1 Digit; One (Lit "."); Many1 Digit] t).
  split.
  - intros H. apply orb_prop in H as [H | H].
    + destruct t as [|a s]; [discriminate|]. cbn [take] in H.
      destruct (Ascii.eqb_spec a "v") as [-> | Hne]; [|discriminate].
      apply version_core in H as (major & minor & rest & -> & H).
      exists "v", major, minor, rest. split; [reflexivity|]. tauto.
    + apply version_core in H as (major & minor & rest & -> & H).
      exists "", major, minor, rest. split; [reflexivity|]. tauto.
  - intros (v & major & minor & rest & -> & [-> | ->] & H).
    + apply orb_true_intro. right. apply version_core.
      exists major, minor, rest. tauto.
    + apply orb_true_intro. left. cbn [String.append take].
      rewrite Ascii.eqb_refl.
      apply version_core. exists major, minor, rest. tauto.
Qed.

(** Among the ASCII characters the digits are ['0'] to ['9']. *)
Lemma digit_char_ascii (a : ascii) :
  (N_of_ascii a < 128)%N ->
  digit_char (String a "") <-> (48 <= N_of_ascii a <= 57)%N.
Proof.
  intros Ha. unfold digit_char, decode1. cbv zeta.
  apply N.ltb_lt in Ha. rewrite Ha. split.
  - intros (c & [= <-] & Hc). unfold isdecimal, decimal_zeros in Hc.
    apply N.ltb_lt in Ha.
    cbn [existsb] in Hc.
    repeat match type of Hc with
           | (_ || _)%bool = true => apply orb_prop in Hc as [Hc | Hc]
           end;
      try (apply andb_prop in Hc as [H1 H2];
           apply N.leb_le in H1; apply N.ltb_lt in H2; lia).
    discriminate.
  - intros [Hlo Hhi]. exists (N_of_ascii a). split; [reflexivity|].
    unfold isdecimal, decimal_zeros. cbn [existsb].
    apply orb_true_intro. left.
    apply andb_true_intro. split; [apply N.leb_le | apply N.ltb_lt]; lia.
Qed.


(** The pattern is not anchored at the end: anything may follow. *)
Example is_release_tag_prefix_only :
  is_release_tag "1.2-rc/anything" = true /\ is_release_tag "v1.x" = false.
Proof. split; reflexivity. Qed.

End ClassifierFacts.

(** ** The stable-reference resolver *)

Section ResolverFacts.
Context {E : Env}.
Import Wrapper.

(** The resolver always returns, after exactly one request. *)
Lemma get_stable_ref_run (owner repo : string) (w : World) :
  get_stable_ref owner repo w =
  (Ok match http_get (releases_url owner repo) with
      | HttpReturns r =>
          if status_code r =? 200 then
            match json_body r with
            | Some (JObject d) =>
                match d !! "tag_name" with
                | Some tag => tag
                | None => PStr "master"
                end
            | _ => PStr "master"
            end
          else PStr "master"
      | HttpRaises _ => PStr "master"
      end,
   after [EvHttpGet (releases_url owner repo)] w).
Proof.
  cbv [get_stable_ref try_except bind requests_get emit ret raise after
       response_json getitem].
  destruct (http_get _) as [e | r]; [reflexivity|].
  destruct (status_code r =? 200); [|reflexivity].
  destruct (json_body r) as [[d|]|]; try reflexivity.
  destruct (d !! "tag_name"); reflexivity.
Qed.

Lemma lookup_outcomes (o : http_outcome) :
  (exists tag, release_found o tag) \/ lookup_failed o.
Proof.
  unfold release_found, lookup_failed.
  destruct o as [e | r]; [right; left; eauto|].
  destruct (Z.eq_dec (status_code r) 200) as [Hs | Hs];
    [|right; right; eauto].
  destruct (json_body r) as [[d|]|] eqn:Hj.
  - destruct (d !! "tag_name") as [tag|] eqn:Ht.
    + left. exists tag, r, d. auto.
    + right. right. exists r. split; [reflexivity|].
      right. right. right. eauto.
  - right. right. exists r. auto.
  - right. right. exists r. auto.
Qed.

(** The resolver's answer is the tag of a release that was found, or the
    default branch. *)
Lemma get_stable_ref_outcome (owner repo : string) (w : World) :
  (exists tag,
      release_found (http_get (releases_url owner repo)) tag /\
      fst (get_stable_ref owner repo w) = Ok tag) \/
  fst (get_stable_ref owner repo w) = Ok (PStr "master").
Proof.
  rewrite get_stable_ref_run. cbn [fst]. unfold release_found.
  destruct (http_get _) as [e | r]; [now right|].
  destruct (Z.eqb_spec (status_code r) 200) as [Hs | Hs]; [|now right].
  destruct (json_body r) as [[d|]|] eqn:Hj; try now right.
  destruct (d !! "tag_name") as [tag|] eqn:Ht; [|now right].
  left. exists tag. split; [|reflexivity]. exists r, d. auto.
Qed.

Lemma get_stable_ref_failed (owner repo : string) (w : World) :
  lookup_failed (http_get (releases_url owner repo)) ->
  get_stable_ref owner repo w
  = (Ok (PStr "master"), after [EvHttpGet (releases_url owner repo)] w).
Proof.
  rewrite get_stable_ref_run.
  intros [[e ->] | (r & -> & H)]; [reflexivity|].
  destruct (Z.eqb_spec (status_code r) 200) as [Hs | Hs]; [|reflexivity].
  destruct H as [H | [H | [H | (d & H & Ht)]]].
  - contradiction.
  - now rewrite H.
  - now rewrite H.
  - now rewrite H, Ht.
Qed.

(** C5 (amended). The resolver always returns, after one request.  When
    the reply has status 200 and its body is a JSON object with a
    [tag_name] member, it returns the value of that member as it is: the
    release's tag name, or whatever else the body holds there.  When the
    request raises, the status is not 200, the body is not JSON, is not
    an object or has no [tag_name], it returns ['master'].  Every lookup
    is one or the other. *)
Theorem get_stable_ref_fallback (owner repo : string) (w : World) :
  let o := http_get (releases_url owner repo) in
  let w' := after [EvHttpGet (releases_url owner repo)] w in
  (forall tag, release_found o tag ->
               get_stable_ref owner repo w = (Ok tag, w')) /\
  (lookup_failed o -> get_stable_ref owner repo w = (Ok (PStr "master"), w')) /\
  (exists tag, get_stable_ref owner repo w = (Ok tag, w')) /\
  ((exists tag, release_found o tag) \/ lookup_failed o).
Proof.
  intros o w'. subst o w'.
  split; [|split; [|split]].
  - rewrite get_stable_ref_run. intros tag (r & d & -> & Hs & Hj & Ht).
    rewrite Hs, Hj, Ht. reflexivity.
  - apply get_stable_ref_failed.
  - rewrite get_stable_ref_run. eexists. reflexivity.
  - apply lookup_outcomes.
Qed.

End ResolverFacts.

(** A repository with a release answers with its tag; an unreachable API
    gives the default branch. *)
Lemma get_stable_ref_fallback_witness :
  fst (@Wrapper.get_stable_ref (Demo.env (Demo.released "v1.4.0") Demo.serve
                                  (Completed 0)) "acme" "widgets" Demo.w0)
  = Ok (PStr "v1.4.0") /\
  fst (@Wrapper.get_stable_ref Demo.plain "acme" "widgets" Demo.w0)
  = Ok (PStr "master").
Proof.
  split.
  - rewrite (proj1 (@get_stable_ref_fallback
                      (Demo.env (Demo.released "v1.4.0") Demo.serve
                         (Completed 0)) "acme" "widgets" Demo.w0)
             (PStr "v1.4.0")).
    + reflexivity.
    + eexists _, _. repeat split.
  - rewrite (proj1 (proj2 (@get_stable_ref_fallback Demo.plain
                             "acme" "widgets" Demo.w0))).
    + reflexivity.
    + left. eexists. reflexivity.
Defined.

(** C5 as stated fails: a reply with status 200 and the body
    [{"tag_name": null}] is no release and no well-formed answer, and the
    resolver returns [None], not ['master']. *)
Lemma get_stable_ref_returns_null_tag :
  fst (@Wrapper.get_stable_ref (Demo.env Demo.null_tag Demo.serve (Completed 0))
         "acme" "widgets" Demo.w0)
  = Ok (PObj "None" "NoneType") /\
  PObj "None" "NoneType" <> PStr "master".
Proof. split; [reflexivity | discriminate]. Qed.

(** ** Shape of every successful parse *)

Section ParseShape.
Context {E : Env}.
Import PyStr Wrapper.

Lemma splitn2_three (s o r f : string) :
  splitn "/" 2 s = [o; r; f] ->
  s = o +:+ "/" +:+ r +:+ "/" +:+ f /\
  contains "/" o = false /\ contains "/" r = false.
Proof.
  intros H. pose proof (join_splitn "/" 2 s) as Hj.
  pose proof (splitn_pieces "/" 2 s) as Hp. rewrite H in Hj, Hp.
  simpl in Hj, Hp. symmetry in Hj.
  inversion Hp as [|? ? Ho Hp']. inversion Hp' as [|? ? Hr _]. auto.
Qed.

(** Without an [@], the input is cut at its first two slashes and the
    version comes from the resolver. *)
Lemma parse_plain_unfold (path : string) (w : World) :
  startswith path "gh:" = true ->
  contains "@" (drop 3 path) = false ->
  parse_github_path path w =
  match splitn "/" 2 (drop 3 path) with
  | [owner; repo; filepath] =>
      (ref <- get_stable_ref owner repo ;;
       ret (owner, repo, ref, filepath)) w
  | _ => raise (invalid_format path "gh:owner/repo/filepath") w
  end.
Proof.
  intros Hp Hat. unfold parse_github_path. rewrite Hp, Hat. cbn [negb].
  destruct (splitn "/" 2 (drop 3 path)) as [|a [|b [|c [|d l]]]];
    reflexivity.
Qed.

(** A string with an [@] is cut at the first one. *)
Lemma contains_cut (c : ascii) (s : string) :
  contains c s = true ->
  exists h t, s = h +:+ String c t /\ contains c h = false.
Proof.
  induction s as [|a s IH]; simpl; [discriminate|].
  destruct (Ascii.eqb a c) eqn:Hac; simpl.
  - intros _. apply Ascii.eqb_eq in Hac as ->. exists "", s. auto.
  - intros Hs. destruct (IH Hs) as (h & t & -> & Hh).
    exists (String a h), t. simpl. rewrite Hac, Hh. auto.
Qed.

(** The only effect of parsing is at most one release lookup. *)
Lemma parse_effects (path : string) (w : World) r w' :
  parse_github_path path w = (r, w') ->
  w' = w \/ exists url, w' = after [EvHttpGet url] w.
Proof.
  unfold parse_github_path.
  destruct (startswith path "gh:") eqn:Hp; cbn [negb];
    [|intros [= <- <-]; auto].
  destruct (contains "@" (drop 3 path)) eqn:Hat.
  - destruct (splitn "@" 1 (drop 3 path)) as [|rp [|rest [|x l]]];
      try (intros [= <- <-]; auto).
    destruct (split "/" rp) as [|o [|r0 [|x l]]];
      try (intros [= <- <-]; auto).
    destruct (splitn "/" 1 rest) as [|a [|b [|c l]]];
      intros [= <- <-]; auto.
  - destruct (splitn "/" 2 (drop 3 path)) as [|a [|b [|c [|d l]]]];
      try (intros [= <- <-]; auto).
    unfold bind. rewrite get_stable_ref_run. intros [= <- <-]. eauto.
Qed.

Lemma parse_files (path : string) (w : World) r w' :
  parse_github_path path w = (r, w') -> files w' = files w.
Proof.
  intros H. apply parse_effects in H as [-> | [url ->]]; reflexivity.
Qed.

(** C9 (amended). The fields of a successful parse are the segments of
    the input: [gh:owner/repo@version/filePath] with the version given,
    or [gh:owner/repo/filePath] with the version answered by the
    resolver (the tag name of the latest release, or ['master']).  Owner
    and repository contain no slash; no field is required to be
    non-empty. *)
Theorem parse_github_path_success_shape
    (path owner repo filepath : string) (version : pyval) (w w' : World) :
  parse_github_path path w = (Ok (owner, repo, version, filepath), w') ->
  contains "/" owner = false /\ contains "/" repo = false /\
  ((exists ref,
       version = PStr ref /\
       path = "gh:" +:+ owner +:+ "/" +:+ repo +:+ "@" +:+ ref +:+ "/"
              +:+ filepath /\
       contains "@" owner = false /\ contains "@" repo = false /\
       contains "/" ref = false /\ w' = w)
   \/
   (path = "gh:" +:+ owner +:+ "/" +:+ repo +:+ "/" +:+ filepath /\
    contains "@" (drop 3 path) = false /\
    get_stable_ref owner repo w = (Ok version, w') /\
    (release_found (http_get (releases_url owner repo)) version \/
     version = PStr "master"))).
Proof.
  intros H.
  destruct (startswith path "gh:") eqn:Hp.
  2:{ unfold parse_github_path in H. rewrite Hp in H. discriminate. }
  pose proof (startswith_inv _ _ Hp) as Hpath. cbn [String.length] in Hpath.
  destruct (contains "@" (drop 3 path)) eqn:Hat.
  - destruct (contains_cut _ _ Hat) as (rp & rest & Hcut & Hrp).
    rewrite Hcut in Hpath.
    change (rp +:+ String "@" rest) with (rp +:+ "@" +:+ rest) in Hpath.
    rewrite Hpath in H.
    destruct (parse_at_success rp rest w owner repo version filepath w'
                Hrp H)
      as (ref & -> & (Hseg & Ho & Hr) & Hrest & Hv & Hw).
    subst rp. rewrite contains_append in Hrp.
    apply orb_false_elim in Hrp as [Hao Har].
    rewrite contains_append in Har. apply orb_false_elim in Har as [_ Har].
    split; [exact Ho|]. split; [exact Hr|]. left. exists ref.
    repeat split; auto.
    rewrite Hpath, Hrest. now rewrite !append_assoc.
  - rewrite (parse_plain_unfold _ _ Hp Hat) in H.
    destruct (splitn "/" 2 (drop 3 path)) as [|a [|b [|c [|d l]]]] eqn:Hs;
      try discriminate.
    unfold bind in H. pose proof (get_stable_ref_run a b w) as Hrun.
    rewrite Hrun in H. injection H as -> -> Hv -> Hw.
    apply splitn2_three in Hs as (Hs & Ho & Hr).
    repeat split; auto. right. repeat split.
    + rewrite Hpath, Hs. reflexivity.
    + rewrite Hrun, Hv, Hw. reflexivity.
    + destruct (get_stable_ref_outcome owner repo w) as [Hf | Hm].
      * left. destruct Hf as (tag & Hf & Htag).
        rewrite Hrun in Htag. cbn [fst] in Htag. injection Htag as Htag.
        rewrite Htag in Hv. now subst tag.
      * right. rewrite Hrun in Hm. cbn [fst] in Hm. injection Hm as Hm.
        congruence.
Qed.

End ParseShape.

(** The unresolved form of the first end-to-end scenario, and a reference
    whose four fields are all empty. *)
Lemma parse_github_path_success_shape_witness :
  @Wrapper.get_stable_ref Demo.plain "acme" "widgets" Demo.w0
  = (Ok (PStr "master"),
     after [EvHttpGet (Wrapper.releases_url "acme" "widgets")] Demo.w0).
Proof.
  destruct (@parse_github_path_success_shape Demo.plain
              "gh:acme/widgets/config.yaml" "acme" "widgets"
              "config.yaml" (PStr "master") Demo.w0
              (after [EvHttpGet (Wrapper.releases_url "acme" "widgets")]
                 Demo.w0) eq_refl)
    as (_ & _ & [(ref & _ & H & _) | (_ & _ & H & _)]).
  - discriminate H.
  - exact H.
Defined.

(** C9 as stated fails: [gh:/@/] parses, and owner, repository, version
    and file path are all empty. *)
Lemma parse_github_path_empty_fields :
  @Wrapper.parse_github_path Demo.plain "gh:/@/" Demo.w0
  = (Ok ("", "", PStr "", ""), Demo.w0).
Proof. reflexivity. Qed.

(** ** The fetcher and its cache policy *)

Section FetchFacts.
Context {E : Env}.
Import PyStr Wrapper.

Lemma bind_ret_r {A} (c : M A) (w : World) : (x <- c ;; ret x) w = c w.
Proof. unfold bind, ret. destruct (c w) as [[a | e] w']; reflexivity. Qed.

Lemma retrieve_run (url dir fname : string) (w : World) :
  retrieve url dir fname w =
  (fst (pooch_retrieve url dir fname (files w)),
   {| files := snd (pooch_retrieve url dir fname (files w));
      trace := trace w ++ [EvRetrieve url dir fname] |}).
Proof.
  cbv [retrieve bind emit files trace].
  destruct (pooch_retrieve url dir fname _) as [r fs]. reflexivity.
Qed.

(** After a successful parse the fetcher always reaches the retrieval
    helper; the world it is called in depends on the cache policy. *)
Lemma fetch_unfold (path cache_dir : string) (w w1 : World)
    owner repo (ref : string) filepath :
  parse_github_path path w = (Ok (owner, repo, PStr ref, filepath), w1) ->
  let p := path_join cache_dir (cache_filename ref filepath) in
  let present := bool_decide (is_Some (files w !! p)) in
  fetch_github_file path cache_dir w =
  retrieve (raw_url owner repo ref filepath) cache_dir
    (cache_filename ref filepath)
    (if negb (is_release_tag ref) && present then
       {| files := delete p (files w);
          trace := trace w1 ++ [EvPrint (refreshing_msg owner repo ref filepath);
                                EvUnlink p] |}
     else if is_release_tag ref && present then
       after [EvPrint (using_cached_msg owner repo ref filepath)] w1
     else w1).
Proof.
  intros Hparse p present. subst p present.
  pose proof (parse_files _ _ _ _ Hparse) as Hfiles.
  unfold fetch_github_file. unfold bind at 1. rewrite Hparse.
  cbv beta iota zeta. cbn [match_release_tag py_format].
  unfold bind at 1. unfold ret at 1.
  destruct (is_release_tag ref); cbn [negb andb].
  - unfold bind at 1. unfold ret at 1. unfold bind at 1. unfold bind at 1.
    unfold path_exists at 1. rewrite Hfiles.
    destruct (bool_decide (is_Some (files w !! _))).
    + unfold print, emit at 1. rewrite bind_ret_r. reflexivity.
    + unfold ret at 1. rewrite bind_ret_r. reflexivity.
  - unfold bind at 1. unfold bind at 1. unfold path_exists at 1.
    rewrite Hfiles.
    destruct (bool_decide (is_Some (files w !! _))) eqn:Hpres.
    + apply bool_decide_eq_true in Hpres as [c Hc].
      unfold bind at 1. unfold print, emit at 1.
      unfold unlink, bind at 1. unfold emit at 1. cbn [files trace].
      rewrite Hfiles, Hc. rewrite bind_ret_r.
      rewrite <- app_assoc. reflexivity.
    + unfold bind at 1. unfold ret at 1. unfold ret at 1.
      rewrite bind_ret_r. reflexivity.
Qed.


End FetchFacts.

Section CachePolicy.
Context {E : Env}.
Import PyStr Wrapper.

(** C3. For a reference whose version is classified mutable, a file
    that exists at the cache path when the fetcher runs is unlinked
    first: the retrieval helper is called on a file system without it,
    and the trace shows the unlink before the retrieval. *)
Theorem fetch_github_file_refreshes_branch
    (path cache_dir owner repo ref filepath content : string)
    (w w1 : World) :
  parse_github_path path w = (Ok (owner, repo, PStr ref, filepath), w1) ->
  is_release_tag ref = false ->
  files w !! path_join cache_dir (cache_filename ref filepath)
  = Some content ->
  let p := path_join cache_dir (cache_filename ref filepath) in
  let url := raw_url owner repo ref filepath in
  let fname := cache_filename ref filepath in
  let out := pooch_retrieve url cache_dir fname (delete p (files w)) in
  delete p (files w) !! p = None /\
  fetch_github_file path cache_dir w =
  (fst out,
   {| files := snd out;
      trace := trace w1 ++ [EvPrint (refreshing_msg owner repo ref filepath);
                            EvUnlink p;
                            EvRetrieve url cache_dir fname] |}).
Proof.
  intros Hparse Hmut Hfile p url fname out. subst p url fname out.
  split; [apply lookup_delete_eq|].
  rewrite (fetch_unfold _ _ _ _ _ _ _ _ Hparse). cbv zeta.
  rewrite Hmut, Hfile. cbn [negb andb].
  rewrite bool_decide_eq_true_2 by eauto.
  rewrite retrieve_run. cbn [files trace].
  rewrite <- app_assoc. reflexivity.
Qed.

(** C4. For a reference whose version is classified immutable and a
    file present at the cache path, with a retrieval helper that reuses
    a present file: the fetcher removes nothing, the file keeps its
    content, and the path returned is the path of that file. *)
Theorem fetch_github_file_keeps_release
    (path cache_dir owner repo ref filepath content : string)
    (w w1 : World) :
  reuses_present_file E ->
  parse_github_path path w = (Ok (owner, repo, PStr ref, filepath), w1) ->
  is_release_tag ref = true ->
  files w !! path_join cache_dir (cache_filename ref filepath)
  = Some content ->
  let p := path_join cache_dir (cache_filename ref filepath) in
  exists evs,
    fetch_github_file path cache_dir w = (Ok p, after evs w) /\
    no_unlink evs /\
    files (after evs w) = files w /\
    files (after evs w) !! p = Some content.
Proof.
  intros Hreuse Hparse Hrel Hfile p. subst p.
  rewrite (fetch_unfold _ _ _ _ _ _ _ _ Hparse). cbv zeta.
  rewrite Hrel, Hfile. cbn [negb andb].
  rewrite bool_decide_eq_true_2 by eauto.
  rewrite retrieve_run.
  pose proof (parse_files _ _ _ _ Hparse) as Hfiles.
  cbn [after files trace]. rewrite Hfiles.
  rewrite Hreuse by (rewrite Hfile; eauto). cbn [fst snd].
  destruct (parse_effects _ _ _ _ Hparse) as [-> | [u ->]].
  - eexists. split; [|split; [|split]].
    + unfold after. rewrite <- app_assoc. reflexivity.
    + intros q [H | [H | []]]; discriminate.
    + reflexivity.
    + exact Hfile.
  - eexists. split; [|split; [|split]].
    + unfold after. cbn [files trace]. rewrite <- !app_assoc. reflexivity.
    + intros q [H | [H | [H | []]]]; discriminate.
    + reflexivity.
    + exact Hfile.
Qed.

End CachePolicy.

Lemma demo_reuses_present_file api raw copier :
  reuses_present_file (Demo.env api raw copier).
Proof.
  intros url dir fname fs [c Hc]. cbn [pooch_retrieve path_join Demo.env] in *.
  unfold Demo.pooch. now rewrite Hc.
Qed.

(** A cached copy of a branch file is removed before the retrieval. *)
Lemma fetch_github_file_refreshes_branch_witness :
  trace (snd (@Wrapper.fetch_github_file Demo.plain
                "gh:acme/widgets@master/config.yaml" Demo.cache_dir
                (Demo.cached "/home/user/.cache/acme/widgets/master_config.yaml"
                   "name: old")))
  = [EvPrint "Refreshing config.yaml from acme/widgets (branch: master)";
     EvUnlink "/home/user/.cache/acme/widgets/master_config.yaml";
     EvRetrieve
       "https://raw.githubusercontent.com/acme/widgets/refs/heads/master/config.yaml"
       "/home/user/.cache/acme/widgets" "master_config.yaml"].
Proof.
  rewrite (proj2 (@fetch_github_file_refreshes_branch Demo.plain
                    "gh:acme/widgets@master/config.yaml" Demo.cache_dir
                    "acme" "widgets" "master" "config.yaml" "name: old"
                    (Demo.cached
                       "/home/user/.cache/acme/widgets/master_config.yaml"
                       "name: old")
                    _ eq_refl eq_refl eq_refl)).
  reflexivity.
Defined.

(** The second end-to-end scenario: the cached release file is returned
    and keeps its content. *)
Lemma fetch_github_file_keeps_release_witness :
  exists evs,
    @Wrapper.fetch_github_file Demo.plain
      "gh:acme/widgets@v1.0.0/config.yaml" Demo.cache_dir
      (Demo.cached "/home/user/.cache/acme/widgets/v1.0.0_config.yaml"
         "name: old")
    = (Ok "/home/user/.cache/acme/widgets/v1.0.0_config.yaml",
       after evs
         (Demo.cached "/home/user/.cache/acme/widgets/v1.0.0_config.yaml"
            "name: old")) /\
    no_unlink evs.
Proof.
  destruct (@fetch_github_file_keeps_release Demo.plain
              "gh:acme/widgets@v1.0.0/config.yaml" Demo.cache_dir
              "acme" "widgets" "v1.0.0" "config.yaml" "name: old"
              (Demo.cached "/home/user/.cache/acme/widgets/v1.0.0_config.yaml"
                 "name: old")
              _ (demo_reuses_present_file _ _ _) eq_refl eq_refl eq_refl)
    as (evs & Hrun & Hno & _).
  exists evs. split; [exact Hrun | exact Hno].
Defined.

(** ** What is asked of the retrieval helper *)

Section Requests.
Context {E : Env}.
Import PyStr Wrapper.

Lemma retrieve_requests_app (tr1 tr2 : list event) :
  retrieve_requests (tr1 ++ tr2)
  = retrieve_requests tr1 ++ retrieve_requests tr2.
Proof.
  induction tr1 as [|e tr1 IH]; [reflexivity|].
  destruct e; simpl; now rewrite IH.
Qed.

Lemma parse_requests (path : string) (w : World) r w' :
  parse_github_path path w = (r, w') ->
  retrieve_requests (trace w') = retrieve_requests (trace w).
Proof.
  intros H. apply parse_effects in H as [-> | [url ->]]; [reflexivity|].
  cbn [after trace]. rewrite retrieve_requests_app. simpl.
  apply app_nil_r.
Qed.

(** One request per fetch, whatever the cache policy decided. *)
Lemma fetch_requests (path cache_dir : string) (w w1 : World)
    owner repo (ref : string) filepath :
  parse_github_path path w = (Ok (owner, repo, PStr ref, filepath), w1) ->
  retrieve_requests (trace (snd (fetch_github_file path cache_dir w)))
  = retrieve_requests (trace w)
    ++ [(raw_url owner repo ref filepath, cache_dir,
         cache_filename ref filepath)].
Proof.
  intros Hparse. rewrite (fetch_unfold _ _ _ _ _ _ _ _ Hparse). cbv zeta.
  rewrite retrieve_run. cbn [snd trace].
  rewrite retrieve_requests_app. f_equal.
  rewrite <- (parse_requests _ _ _ _ Hparse).
  destruct (negb (is_release_tag ref) && _).
  - cbn [trace]. rewrite retrieve_requests_app. simpl. apply app_nil_r.
  - destruct (is_release_tag ref && _); [|reflexivity].
    cbn [after trace]. rewrite retrieve_requests_app. simpl.
    apply app_nil_r.
Qed.

Lemma fetch_project_data_requests (repo branch filepath dir : string)
    (w : World) :
  retrieve_requests
    (trace (snd (Update.fetch_project_data repo branch filepath dir w)))
  = retrieve_requests (trace w)
    ++ [(Update.raw_url repo branch filepath, dir,
         Update.cache_filename filepath)].
Proof.
  unfold Update.fetch_project_data. unfold bind at 1.
  rewrite retrieve_run.
  destruct (pooch_retrieve _ _ _ _) as [[f | e] fs]; cbn [fst snd].
  - cbv [bind print emit ret snd trace files].
    rewrite <- app_assoc, retrieve_requests_app. reflexivity.
  - cbn [snd trace]. rewrite retrieve_requests_app. reflexivity.
Qed.

(** Distinct versions of one file path get distinct cache names. *)
Lemma cache_filename_inj (ref1 ref2 filepath : string) :
  cache_filename ref1 filepath = cache_filename ref2 filepath ->
  ref1 = ref2.
Proof. unfold cache_filename. apply append_inj_l. Qed.

(** The first end-to-end scenario up to the parse. *)
Lemma parse_acme_widgets (w : World) :
  lookup_failed (http_get (releases_url "acme" "widgets")) ->
  parse_github_path "gh:acme/widgets/config.yaml" w
  = (Ok ("acme", "widgets", PStr "master", "config.yaml"),
     after [EvHttpGet (releases_url "acme" "widgets")] w).
Proof.
  intros Hfail.
  rewrite (parse_plain_unfold "gh:acme/widgets/config.yaml" w eq_refl eq_refl).
  change (splitn "/" 2 (drop 3 "gh:acme/widgets/config.yaml"))
    with ["acme"; "widgets"; "config.yaml"].
  cbv beta iota. unfold bind. rewrite (get_stable_ref_failed _ _ _ Hfail).
  reflexivity.
Qed.

(** C10. For every parsed reference, release tags included, the URL the
    fetcher asks for puts the version into the branch segment
    [refs/heads/<ref>]; the classification of the version plays no part.
    [fetch_project_data] builds its URL the same way. *)
Theorem download_url_uses_refs_heads
    (path cache_dir owner repo ref filepath : string) (w w1 : World) :
  parse_github_path path w = (Ok (owner, repo, PStr ref, filepath), w1) ->
  retrieve_requests (trace (snd (fetch_github_file path cache_dir w)))
  = retrieve_requests (trace w)
    ++ [("https://raw.githubusercontent.com/" +:+ owner +:+ "/" +:+ repo
         +:+ "/refs/heads/" +:+ ref +:+ "/" +:+ filepath,
         cache_dir, cache_filename ref filepath)]
  /\
  forall repo' branch filepath' dir w',
    retrieve_requests
      (trace (snd (Update.fetch_project_data repo' branch filepath' dir w')))
    = retrieve_requests (trace w')
      ++ [("https://raw.githubusercontent.com/" +:+ repo'
           +:+ "/refs/heads/" +:+ branch +:+ "/" +:+ filepath',
           dir, Update.cache_filename filepath')].
Proof.
  intros Hparse. split.
  - exact (fetch_requests _ _ _ _ _ _ _ _ Hparse).
  - intros repo' branch filepath' dir w'.
    rewrite fetch_project_data_requests. unfold Update.raw_url.
    cbv zeta. now rewrite !append_assoc.
Qed.

(** C6 (amended). In [fetch_github_file] the cache file name is the
    version, an underscore, and the file path with every slash replaced
    by an underscore; for one file path, distinct versions give distinct
    names; for [gh:acme/widgets/config.yaml] with no release reachable
    the name is [master_config.yaml].  In [fetch_project_data] the name
    is the flattened file path alone, whatever the branch. *)
Theorem cache_filename_per_version :
  (forall path cache_dir owner repo (ref : string) filepath w w1,
      parse_github_path path w = (Ok (owner, repo, PStr ref, filepath), w1) ->
      exists url,
        retrieve_requests (trace (snd (fetch_github_file path cache_dir w)))
        = retrieve_requests (trace w)
          ++ [(url, cache_dir, ref +:+ "_" +:+ replace "/" "_" filepath)]) /\
  (forall filepath, contains "/" (replace "/" "_" filepath) = false) /\
  (forall ref1 ref2 filepath,
      ref1 <> ref2 ->
      cache_filename ref1 filepath <> cache_filename ref2 filepath) /\
  (lookup_failed (http_get (releases_url "acme" "widgets")) ->
   forall cache_dir w,
   exists url,
     retrieve_requests
       (trace (snd (fetch_github_file "gh:acme/widgets/config.yaml"
                      cache_dir w)))
     = retrieve_requests (trace w) ++ [(url, cache_dir, "master_config.yaml")]) /\
  (forall repo branch filepath dir w,
      exists url,
        retrieve_requests
          (trace (snd (Update.fetch_project_data repo branch filepath dir w)))
        = retrieve_requests (trace w)
          ++ [(url, dir, replace "/" "_" filepath)]).
Proof.
  split; [|split; [|split; [|split]]].
  - intros path cache_dir owner repo ref filepath w w1 Hparse.
    eexists. exact (fetch_requests _ _ _ _ _ _ _ _ Hparse).
  - intros filepath. now apply contains_replace.
  - intros ref1 ref2 filepath Hne Heq. apply Hne.
    exact (cache_filename_inj _ _ _ Heq).
  - intros Hfail cache_dir w. eexists.
    exact (fetch_requests _ _ _ _ _ _ _ _ (parse_acme_widgets w Hfail)).
  - intros repo branch filepath dir w. eexists.
    apply fetch_project_data_requests.
Qed.

End Requests.

(** A release tag is fetched from the branch segment too. *)
Lemma download_url_uses_refs_heads_witness :
  retrieve_requests
    (trace (snd (@Wrapper.fetch_github_file Demo.plain
                   "gh:acme/widgets@v1.0.0/config.yaml" Demo.cache_dir
                   Demo.w0)))
  = [("https://raw.githubusercontent.com/acme/widgets/refs/heads/v1.0.0/config.yaml",
      "/home/user/.cache/acme/widgets", "v1.0.0_config.yaml")].
Proof.
  rewrite (proj1 (@download_url_uses_refs_heads Demo.plain
                    "gh:acme/widgets@v1.0.0/config.yaml" Demo.cache_dir
                    "acme" "widgets" "v1.0.0" "config.yaml" Demo.w0 Demo.w0
                    eq_refl)).
  reflexivity.
Defined.

(** The first end-to-end scenario: nothing released, the branch names the
    cache file. *)
Lemma cache_filename_per_version_witness :
  exists url,
    retrieve_requests
      (trace (snd (@Wrapper.fetch_github_file Demo.plain
                     "gh:acme/widgets/config.yaml" Demo.cache_dir Demo.w0)))
    = [(url, Demo.cache_dir, "master_config.yaml")].
Proof.
  destruct (proj1 (proj2 (proj2 (proj2 (@cache_filename_per_version Demo.plain))))
              (or_introl (ex_intro _ (OtherException "ConnectionError") eq_refl))
              Demo.cache_dir Demo.w0) as [url H].
  exists url. exact H.
Defined.

(** C6 as stated fails on [fetch_project_data]: the branches [master] and
    [dev] of one file path share the cache file name [config.yaml], and
    the reference [gh:acme/widgets/config.yaml] gets that name, not
    [master_config.yaml]. *)
Lemma fetch_project_data_name_ignores_branch :
  @Update.parse_github_url "gh:acme/widgets/config.yaml"
  = Ok ("acme/widgets", "master", "config.yaml") /\
  retrieve_requests
    (trace (snd (@Update.fetch_project_data Demo.plain
                   "acme/widgets" "master" "config.yaml" Demo.cache_dir
                   Demo.w0)))
  = [("https://raw.githubusercontent.com/acme/widgets/refs/heads/master/config.yaml",
      Demo.cache_dir, "config.yaml")] /\
  retrieve_requests
    (trace (snd (@Update.fetch_project_data Demo.plain
                   "acme/widgets" "dev" "config.yaml" Demo.cache_dir
                   Demo.w0)))
  = [("https://raw.githubusercontent.com/acme/widgets/refs/heads/dev/config.yaml",
      Demo.cache_dir, "config.yaml")] /\
  "master" <> "dev" /\ "config.yaml" <> "master_config.yaml".
Proof. repeat split; discriminate. Qed.

(** ** The command forwarder *)

Section MainFacts.
Context {E : Env}.
Import PyStr Wrapper.

(** A [--gh-data] appended to arguments that scan on their own is read
    as the option, and has no value. *)
Lemma scan_args_dangling_pair (args : list string) :
  (forall acc gd, scan_args args acc gd <> None ->
                  scan_args (args ++ ["--gh-data"]) acc gd = None) /\
  (forall acc gd, scan_args (tl args) acc gd <> None ->
                  scan_args (tl args ++ ["--gh-data"]) acc gd = None).
Proof.
  induction args as [|a rest [IH1 IH2]].
  - split; intros acc gd _; reflexivity.
  - split; [|exact IH1].
    intros acc gd H. cbn [app scan_args] in *.
    destruct (String.eqb a "--gh-data").
    + destruct rest as [|v rest']; [contradiction|].
      cbn [app]. apply (IH2 acc (Some v) H).
    + apply (IH1 _ gd H).
Qed.

Lemma scan_args_dangling (args acc : list string) gd :
  scan_args args acc gd <> None ->
  scan_args (args ++ ["--gh-data"]) acc gd = None.
Proof. apply scan_args_dangling_pair. Qed.

(** C8 (amended). When [--gh-data] is the last argument and is read as
    the option, that is, when the arguments before it scan on their own
    and leave no [--gh-data] waiting for its value, [main] returns 1 after
    printing the usage error and nothing else: no request, no fetch, no
    subprocess. *)
Theorem main_missing_value
    (prog : string) (args copier_args : list string)
    (github_data : option string) (w : World) :
  scan_args args [] None = Some (copier_args, github_data) ->
  main (prog :: args ++ ["--gh-data"]) w
  = (Ok 1, after [EvPrint usage_msg] w) /\
  no_network [EvPrint usage_msg] = true.
Proof.
  intros Hscan. split; [|reflexivity].
  unfold main. cbn [tl].
  rewrite scan_args_dangling by (rewrite Hscan; discriminate).
  reflexivity.
Qed.

(** The resolution block, case by case. *)
Lemma process_gh (copier_args : list string) (gd : string) (w : World) :
  truthy gd = true -> startswith gd "gh:" = true ->
  process_github_data copier_args (Some gd) w =
  match parse_github_path gd w with
  | (Raise e, w1) => (Ok (inr 1), after [EvPrint (failed_msg gd e)] w1)
  | (Ok (owner, repo, _, _), w1) =>
      let cache_dir :=
        path_join (path_join (path_join home ".cache") owner) repo in
      match mkdir cache_dir (files w1) with
      | Some e =>
          (Ok (inr 1),
           after [EvMkdir cache_dir; EvPrint (failed_msg gd e)] w1)
      | None =>
          match fetch_github_file gd cache_dir
                  (after [EvMkdir cache_dir] w1) with
          | (Raise e, w2) =>
              (Ok (inr 1), after [EvPrint (failed_msg gd e)] w2)
          | (Ok local_file, w2) =>
              (Ok (inl (copier_args ++ ["--data-file"; local_file])),
               after [EvPrint ""] w2)
          end
      end
  end.
Proof.
  intros Ht Hp. unfold process_github_data. rewrite Ht, Hp.
  unfold try_except. unfold bind at 1.
  destruct (parse_github_path gd w) as [[[[[o r] ref] fp] | e] w1];
    [|reflexivity].
  cbv zeta. unfold bind at 1. unfold mkdir_parents. unfold bind at 1.
  unfold emit at 1. cbn [files trace].
  destruct (mkdir _ (files w1)) as [e|].
  - cbv [bind print emit ret after files trace].
    rewrite <- app_assoc. reflexivity.
  - unfold bind at 1. fold (after [EvMkdir
      (path_join (path_join (path_join home ".cache") o) r)] w1).
    destruct (fetch_github_file gd _ _) as [[lf | e] w2]; reflexivity.
Qed.

(** The block never raises: it hands over arguments or returns 1. *)
Lemma process_total (copier_args : list string) gd (w : World) :
  exists r w1,
    process_github_data copier_args gd w = (Ok r, w1) /\
    (r = inr 1 \/ exists args', r = inl args').
Proof.
  assert (Hout : forall (r : list string + Z) (w1 : World),
             r = inr 1 \/ (exists args', r = inl args') ->
             exists r' w1',
               (Ok r, w1) = (Ok r', w1') /\
               (r' = inr 1 \/ exists args', r' = inl args'))
    by (intros r w1 H; exists r, w1; auto).
  destruct gd as [gd|];
    [|unfold process_github_data, ret; apply Hout; right; eauto].
  destruct (truthy gd) eqn:Ht;
    [|unfold process_github_data, ret; rewrite Ht; apply Hout; right; eauto].
  destruct (startswith gd "gh:") eqn:Hp;
    [|unfold process_github_data, ret; rewrite Ht, Hp; apply Hout; right;
      eauto].
  rewrite (process_gh _ _ _ Ht Hp).
  destruct (parse_github_path gd w) as [[[[[o r] ref] fp] | e] w1];
    [|apply Hout; now left].
  cbv zeta. destruct (mkdir _ _); [apply Hout; now left|].
  destruct (fetch_github_file _ _ _) as [[lf | e] w2]; apply Hout;
    [right; eauto | now left].
Qed.

(** Once the arguments for copier are assembled, the value of [main] is
    decided by the launch. *)
Lemma main_launch (argv copier_args args' : list string) gd (w w1 : World) :
  scan_args (tl argv) [] None = Some (copier_args, gd) ->
  process_github_data copier_args gd w = (Ok (inl args'), w1) ->
  main argv w =
  let w2 := after [EvRun ("copier" :: args')] w1 in
  match subprocess_run ("copier" :: args') (files w1) with
  | Completed rc => (Ok rc, w2)
  | RunRaises (FileNotFoundError m) =>
      (Ok 1, after [EvPrint not_found_msg] w2)
  | RunRaises e => (Ok 1, after [EvPrint (run_error_msg e)] w2)
  end.
Proof.
  intros Hscan Hproc. unfold main. rewrite Hscan.
  unfold bind at 1. rewrite Hproc.
  cbv [try_except run bind emit files trace after].
  destruct (subprocess_run _ _) as [rc | [m | m | m]]; reflexivity.
Qed.

Lemma main_early_return (argv copier_args : list string) gd (w w1 : World) c :
  scan_args (tl argv) [] None = Some (copier_args, gd) ->
  process_github_data copier_args gd w = (Ok (inr c), w1) ->
  main argv w = (Ok c, w1).
Proof.
  intros Hscan Hproc. unfold main. rewrite Hscan.
  unfold bind at 1. now rewrite Hproc.
Qed.

End MainFacts.

Section ExitStatus.
Context {E : Env}.
Import PyStr Wrapper.

(** C7 (amended). [main] always returns a value.  It is 1 when
    [--gh-data] has no value; 1 when a [gh:] reference fails to parse,
    the cache directory cannot be made, or the fetch fails; 1 when
    launching copier raises, be it [FileNotFoundError] (copier not
    found) or any other exception; and in every remaining case, which
    is when the subprocess completed, it is exactly the subprocess's
    return code, 0 included. *)
Theorem main_exit_status (argv : list string) (w : World) :
  (exists code w', main argv w = (Ok code, w')) /\
  (scan_args (tl argv) [] None = None ->
   main argv w = (Ok 1, after [EvPrint usage_msg] w)) /\
  (forall copier_args gd,
      scan_args (tl argv) [] None = Some (copier_args, Some gd) ->
      truthy gd = true -> startswith gd "gh:" = true ->
      (forall e w1,
          parse_github_path gd w = (Raise e, w1) ->
          main argv w = (Ok 1, after [EvPrint (failed_msg gd e)] w1)) /\
      (forall owner repo ref filepath w1,
          parse_github_path gd w = (Ok (owner, repo, ref, filepath), w1) ->
          let cache_dir :=
            path_join (path_join (path_join home ".cache") owner) repo in
          (forall e,
              mkdir cache_dir (files w1) = Some e ->
              main argv w
              = (Ok 1, after [EvMkdir cache_dir; EvPrint (failed_msg gd e)]
                         w1)) /\
          (forall e w2,
              mkdir cache_dir (files w1) = None ->
              fetch_github_file gd cache_dir (after [EvMkdir cache_dir] w1)
              = (Raise e, w2) ->
              main argv w = (Ok 1, after [EvPrint (failed_msg gd e)] w2)))) /\
  (forall copier_args gd,
      scan_args (tl argv) [] None = Some (copier_args, gd) ->
      exists r w1,
        process_github_data copier_args gd w = (Ok r, w1) /\
        (r = inr 1 \/ exists args', r = inl args')) /\
  (forall copier_args gd args' w1,
      scan_args (tl argv) [] None = Some (copier_args, gd) ->
      process_github_data copier_args gd w = (Ok (inl args'), w1) ->
      let w2 := after [EvRun ("copier" :: args')] w1 in
      (forall rc,
          subprocess_run ("copier" :: args') (files w1) = Completed rc ->
          main argv w = (Ok rc, w2)) /\
      (forall m,
          subprocess_run ("copier" :: args') (files w1)
          = RunRaises (FileNotFoundError m) ->
          main argv w = (Ok 1, after [EvPrint not_found_msg] w2)) /\
      (forall e,
          subprocess_run ("copier" :: args') (files w1) = RunRaises e ->
          exists w', main argv w = (Ok 1, w'))).
Proof.
  split; [|split; [|split; [|split]]].
  - destruct (scan_args (tl argv) [] None) as [[copier_args gd]|] eqn:Hscan.
    + destruct (process_total copier_args gd w)
        as (r & w1 & Hproc & [-> | [args' ->]]).
      * rewrite (main_early_return _ _ _ _ _ _ Hscan Hproc). eauto.
      * rewrite (main_launch _ _ _ _ _ _ Hscan Hproc). cbv zeta.
        destruct (subprocess_run _ _) as [rc | [m | m | m]]; eauto.
    + unfold main. rewrite Hscan. eexists _, _. reflexivity.
  - intros Hscan. unfold main. rewrite Hscan. reflexivity.
  - intros copier_args gd Hscan Ht Hp.
    pose proof (process_gh copier_args gd w Ht Hp) as Hproc.
    split.
    + intros e w1 Hparse. rewrite Hparse in Hproc.
      exact (main_early_return _ _ _ _ _ _ Hscan Hproc).
    + intros owner repo ref filepath w1 Hparse cache_dir.
      rewrite Hparse in Hproc. cbv zeta in Hproc. fold cache_dir in Hproc.
      split.
      * intros e Hmk. rewrite Hmk in Hproc.
        exact (main_early_return _ _ _ _ _ _ Hscan Hproc).
      * intros e w2 Hmk Hfetch. rewrite Hmk, Hfetch in Hproc.
        exact (main_early_return _ _ _ _ _ _ Hscan Hproc).
  - intros copier_args gd _. apply process_total.
  - intros copier_args gd args' w1 Hscan Hproc w2. subst w2.
    pose proof (main_launch _ _ _ _ _ _ Hscan Hproc) as Hmain.
    cbv zeta in Hmain. repeat split.
    + intros rc Hrun. now rewrite Hrun in Hmain.
    + intros m Hrun. now rewrite Hrun in Hmain.
    + intros e Hrun. rewrite Hrun in Hmain.
      destruct e; eauto.
Qed.

End ExitStatus.

(** The exit code of copier comes back unchanged. *)
Lemma main_exit_status_witness :
  @Wrapper.main (Demo.env Demo.offline Demo.serve (Completed 3))
    ["copier_wrapper.py"; "update"; "--gh-data"; "project.yaml"] Demo.w0
  = (Ok 3,
     after [EvRun ["copier"; "update"; "--data-file"; "project.yaml"]] Demo.w0).
Proof.
  apply (proj1 (proj2 (proj2 (proj2 (proj2
           (@main_exit_status (Demo.env Demo.offline Demo.serve (Completed 3))
              ["copier_wrapper.py"; "update"; "--gh-data"; "project.yaml"]
              Demo.w0))))
           ["update"] (Some "project.yaml")
           ["update"; "--data-file"; "project.yaml"] Demo.w0
           eq_refl eq_refl) 3 eq_refl).
Defined.

(** C7 as stated fails: with [copier] present but not startable there is
    no usage error, nothing to parse or fetch, no [FileNotFoundError] and
    no exit code of a subprocess, and [main] returns 1. *)
Lemma main_launch_error_returns_1 :
  @Wrapper.scan_args ["copy"; "gh:acme/template"; "."] [] None
  = Some (["copy"; "gh:acme/template"; "."], None) /\
  @subprocess_run Demo.unlaunchable ["copier"; "copy"; "gh:acme/template"; "."] ∅
  = RunRaises (OtherException "Permission denied") /\
  @Wrapper.main Demo.unlaunchable
    ["copier_wrapper.py"; "copy"; "gh:acme/template"; "."] Demo.w0
  = (Ok 1,
     after [EvRun ["copier"; "copy"; "gh:acme/template"; "."];
            EvPrint "❌ Error running copier: Permission denied"] Demo.w0).
Proof. repeat split. Qed.

(** The third end-to-end scenario. *)
Lemma main_missing_value_witness :
  @Wrapper.main Demo.plain
    ["copier_wrapper.py"; "copy"; "gh:acme/template"; "."; "--gh-data"] Demo.w0
  = (Ok 1, after [EvPrint "❌ Error: --gh-data requires a value"] Demo.w0).
Proof.
  apply (proj1 (@main_missing_value Demo.plain "copier_wrapper.py"
                  ["copy"; "gh:acme/template"; "."]
                  ["copy"; "gh:acme/template"; "."] None Demo.w0 eq_refl)).
Defined.

(** C8 as stated fails: in [copy --gh-data --gh-data] the last argument
    is [--gh-data] and nothing follows it, yet it is taken as the value of
    the one before: no usage error, copier is started with it as the data
    file and its return code comes back. *)
Lemma main_gh_data_as_value :
  @Wrapper.main Demo.plain
    ["copier_wrapper.py"; "copy"; "--gh-data"; "--gh-data"] Demo.w0
  = (Ok 0, after [EvRun ["copier"; "copy"; "--data-file"; "--gh-data"]] Demo.w0).
Proof. reflexivity. Qed.


(** * Further properties of the parser *)

Section ParserErrors.
Context {E : Env}.
Import PyStr Wrapper.

(** A string that contains [c] is always cut in two by [split(c, 1)]. *)
Lemma splitn1_cut_some (c : ascii) (s : string) :
  contains c s = true -> exists h t, splitn c 1 s = [h; t].
Proof.
  induction s as [|a s IH]; simpl; [discriminate|].
  destruct (Ascii.eqb a c) eqn:Ha; simpl.
  - intros _. rewrite splitn_0. eauto.
  - intros Hs. destruct (IH Hs) as (h & t & ->). eauto.
Qed.

Lemma parse_failure (path : string) (w w' : World) (e : exn) :
  parse_github_path path w = (Raise e, w') ->
  w' = w /\
  (e = invalid_format path "gh:owner/repo@ref/filepath" \/
   e = invalid_format path "gh:owner/repo/filepath").
Proof.
  unfold parse_github_path.
  destruct (startswith path "gh:"); cbn [negb];
    [|intros [= <- <-]; auto].
  destruct (contains "@" (drop 3 path)) eqn:Hat.
  - destruct (splitn1_cut_some _ _ Hat) as (rp & rest & ->).
    destruct (split "/" rp) as [|o [|r [|x l]]];
      try (intros [= <- <-]; auto).
    destruct (splitn "/" 1 rest) as [|a [|b [|c l]]];
      intros [= <- <-]; auto.
  - destruct (splitn "/" 2 (drop 3 path)) as [|a [|b [|c [|d l]]]];
      try (intros [= <- <-]; auto).
    unfold bind. rewrite get_stable_ref_run. discriminate.
Qed.

(** X1. Parsing fails fast: every failure is the [ValueError] that names
    the input and one of the two expected shapes, and a failing parse has
    had no effect at all (in particular no release lookup). *)
Theorem parse_github_path_fails_fast (path : string) (w w' : World) (e : exn) :
  parse_github_path path w = (Raise e, w') ->
  w' = w /\
  (e = invalid_format path "gh:owner/repo@ref/filepath" \/
   e = invalid_format path "gh:owner/repo/filepath").
Proof. apply parse_failure. Qed.

Lemma splitn2_cut (o r f : string) :
  contains "/" o = false -> contains "/" r = false ->
  splitn "/" 2 (o +:+ "/" +:+ r +:+ "/" +:+ f) = [o; r; f].
Proof.
  intros Ho Hr.
  change (o +:+ "/" +:+ r +:+ "/" +:+ f)
    with (o +:+ String "/" (r +:+ String "/" f)).
  now rewrite (splitn_cut "/" 1 o _ Ho), (splitn_cut "/" 0 r f Hr), splitn_0.
Qed.

(** X2. The form without a version, [gh:<rest>] with no [@] in [rest]:
    [rest = owner/repo/filepath] with slash-free owner and repository
    parses to those fields and the resolver's answer, after exactly one
    release lookup (the file path may contain further slashes); any other
    [rest] is rejected with the [gh:owner/repo/filepath] message and no
    effect. *)
Theorem parse_github_path_latest_form (rest : string) (w : World) :
  contains "@" rest = false ->
  (forall owner repo filepath,
      rest = owner +:+ "/" +:+ repo +:+ "/" +:+ filepath ->
      contains "/" owner = false -> contains "/" repo = false ->
      exists tag,
        get_stable_ref owner repo w
        = (Ok tag, after [EvHttpGet (releases_url owner repo)] w) /\
        parse_github_path ("gh:" +:+ rest) w
        = (Ok (owner, repo, tag, filepath),
           after [EvHttpGet (releases_url owner repo)] w)) /\
  ((~ exists owner repo filepath,
        rest = owner +:+ "/" +:+ repo +:+ "/" +:+ filepath /\
        contains "/" owner = false /\ contains "/" repo = false) ->
   parse_github_path ("gh:" +:+ rest) w
   = (Raise (invalid_format ("gh:" +:+ rest) "gh:owner/repo/filepath"), w)).
Proof.
  intros Hat.
  assert (Hun := parse_plain_unfold ("gh:" +:+ rest) w eq_refl Hat).
  change (drop 3 ("gh:" +:+ rest)) with rest in Hun.
  split.
  - intros owner repo filepath Hrest Ho Hr.
    rewrite Hun, Hrest, (splitn2_cut _ _ _ Ho Hr).
    unfold bind. rewrite get_stable_ref_run. eexists. split; reflexivity.
  - intros Hno. rewrite Hun.
    destruct (splitn "/" 2 rest) as [|a [|b [|c [|d l]]]] eqn:Hs;
      try reflexivity.
    exfalso. apply Hno. exists a, b, c. now apply splitn2_three.
Qed.

(** [split] on the two leading segments. *)
Lemma split_three_or_more (o r h : string) :
  contains "/" o = false -> contains "/" r = false ->
  exists x l, split "/" (o +:+ "/" +:+ r +:+ "/" +:+ h) = o :: r :: x :: l.
Proof.
  intros Ho Hr.
  change (o +:+ "/" +:+ r +:+ "/" +:+ h)
    with (o +:+ String "/" (r +:+ String "/" h)).
  rewrite (split_cut _ _ _ Ho), (split_cut _ _ _ Hr).
  pose proof (split_not_nil "/" h) as Hne.
  destruct (split "/" h) as [|x l]; [contradiction|]. eauto.
Qed.

(** X3. Without a version, a file path that contains [@] is never
    accepted: the input is cut at that [@], what precedes it has three or
    more segments, and the parse fails without effect. *)
Theorem parse_github_path_at_in_filepath
    (owner repo filepath : string) (w : World) :
  contains "/" owner = false -> contains "/" repo = false ->
  contains "@" owner = false -> contains "@" repo = false ->
  contains "@" filepath = true ->
  let path := "gh:" +:+ owner +:+ "/" +:+ repo +:+ "/" +:+ filepath in
  parse_github_path path w
  = (Raise (invalid_format path "gh:owner/repo@ref/filepath"), w).
Proof.
  intros Ho Hr Hao Har Hfp path. subst path.
  destruct (contains_cut _ _ Hfp) as (h & t & -> & Hh).
  assert (Hrp : contains "@" (owner +:+ "/" +:+ repo +:+ "/" +:+ h) = false).
  { rewrite !contains_append, Hao, Har, Hh. reflexivity. }
  assert (Heq : "gh:" +:+ owner +:+ "/" +:+ repo +:+ "/" +:+ h +:+ String "@" t
                = "gh:" +:+ (owner +:+ "/" +:+ repo +:+ "/" +:+ h) +:+ "@" +:+ t).
  { cbn [String.append]. do 3 f_equal.
    repeat (rewrite append_assoc; cbn [String.append]). reflexivity. }
  rewrite Heq, (parse_at_unfold _ _ _ Hrp).
  destruct (split_three_or_more owner repo h Ho Hr) as (x & l & ->).
  reflexivity.
Qed.

End ParserErrors.

(** A local path is not a reference. *)
Lemma parse_github_path_fails_fast_witness :
  Demo.w0 = Demo.w0 /\
  (Wrapper.invalid_format "../peasy/project.yaml" "gh:owner/repo@ref/filepath"
   = Wrapper.invalid_format "../peasy/project.yaml" "gh:owner/repo@ref/filepath"
   \/
   Wrapper.invalid_format "../peasy/project.yaml" "gh:owner/repo@ref/filepath"
   = Wrapper.invalid_format "../peasy/project.yaml" "gh:owner/repo/filepath").
Proof.
  exact (@parse_github_path_fails_fast Demo.plain "../peasy/project.yaml"
           Demo.w0 Demo.w0 _ eq_refl).
Defined.

(** A nested file path without a version, the API being unreachable. *)
Lemma parse_github_path_latest_form_witness :
  exists tag,
    @Wrapper.get_stable_ref Demo.plain "acme" "widgets" Demo.w0
    = (Ok tag, after [EvHttpGet (Wrapper.releases_url "acme" "widgets")] Demo.w0) /\
    @Wrapper.parse_github_path Demo.plain
      "gh:acme/widgets/docs/config.yaml" Demo.w0
    = (Ok ("acme", "widgets", tag, "docs/config.yaml"),
       after [EvHttpGet (Wrapper.releases_url "acme" "widgets")] Demo.w0).
Proof.
  exact (proj1 (@parse_github_path_latest_form Demo.plain
                  "acme/widgets/docs/config.yaml" Demo.w0 eq_refl)
           "acme" "widgets" "docs/config.yaml" eq_refl eq_refl eq_refl).
Defined.

Lemma parse_github_path_at_in_filepath_witness :
  @Wrapper.parse_github_path Demo.plain "gh:acme/widgets/users/a@b.yaml" Demo.w0
  = (Raise (Wrapper.invalid_format "gh:acme/widgets/users/a@b.yaml"
              "gh:owner/repo@ref/filepath"), Demo.w0).
Proof.
  exact (@parse_github_path_at_in_filepath Demo.plain
           "acme" "widgets" "users/a@b.yaml" Demo.w0
           eq_refl eq_refl eq_refl eq_refl eq_refl).
Defined.

(** * Further properties of the cache policy *)

Section ClassifierMore.
Import PyStr Re Wrapper.

(** X4. The classification looks at the start of the token only: whatever
    is appended to an immutable token, the result is immutable (so a
    branch named like [1.2-dev] is never refreshed). *)
Theorem is_release_tag_extends (t s : string) :
  is_release_tag t = true -> is_release_tag (t +:+ s) = true.
Proof.
  intros H. apply is_release_tag_iff in H
    as (v & major & minor & rest & -> & Hv & Hrest).
  apply is_release_tag_iff. exists v, major, minor, (rest +:+ s).
  split; [|tauto]. now rewrite !append_assoc.
Qed.

Lemma digit_run_head (m : string) :
  digit_run m -> exists d ds, digit_char d /\ m = d +:+ ds.
Proof.
  intros [d Hd | d ds Hd _]; [exists d, "" | exists d, ds]; split; auto.
  now rewrite append_empty_r.
Qed.

(** The first byte of a digit: an ASCII digit, or the lead byte of a
    longer encoding. *)
Lemma digit_char_first_byte (d : string) :
  digit_char d ->
  exists a d', d = String a d' /\
               ((48 <= N_of_ascii a <= 57)%N \/ (128 <= N_of_ascii a)%N).
Proof.
  intros Hd. pose proof (digit_char_not_empty _ Hd) as Hne.
  destruct d as [|a d']; [contradiction|]. exists a, d'.
  split; [reflexivity|].
  destruct (N.ltb_spec (N_of_ascii a) 128) as [Hlt | Hge]; [|now right].
  left. apply (digit_char_ascii a Hlt).
  destruct Hd as (c & Hdec & Hc). unfold decode1 in Hdec. cbv zeta in Hdec.
  apply N.ltb_lt in Hlt. rewrite Hlt in Hdec. injection Hdec as <- ->.
  exists (N_of_ascii a). split; [|exact Hc].
  unfold decode1. cbv zeta. now rewrite Hlt.
Qed.

(** X5. An immutable token contains a dot and starts with the letter [v]
    or with a digit; so its first byte is [v], one of ['0'] to ['9'], or
    the lead byte of a character outside ASCII, and every token that
    starts with another ASCII character, or has no dot, is mutable. *)
Theorem is_release_tag_necessary (t : string) :
  is_release_tag t = true ->
  contains "." t = true /\
  ((exists rest, t = "v" +:+ rest) \/
   (exists d rest, digit_char d /\ t = d +:+ rest)) /\
  exists a rest,
    t = String a rest /\
    (a = "v"%char \/ (48 <= N_of_ascii a <= 57)%N \/ (128 <= N_of_ascii a)%N).
Proof.
  intros H. apply is_release_tag_iff in H
    as (v & major & minor & rest & -> & Hv & Hmaj & _).
  split; [|split].
  - rewrite !contains_append. cbn [contains]. rewrite Ascii.eqb_refl.
    cbn [orb]. now rewrite !orb_true_r.
  - destruct Hv as [-> | ->]; [right | left; eauto].
    destruct (digit_run_head _ Hmaj) as (d & ds & Hd & ->).
    exists d, (ds +:+ "." +:+ minor +:+ rest). split; [exact Hd|].
    cbn [String.append]. now rewrite append_assoc.
  - destruct Hv as [-> | ->]; [|cbn [String.append]; eauto].
    destruct (digit_run_head _ Hmaj) as (d & ds & Hd & ->).
    destruct (digit_char_first_byte _ Hd) as (a & d' & -> & Ha).
    cbn [String.append]. eauto.
Qed.

End ClassifierMore.

Lemma is_release_tag_extends_witness :
  Wrapper.is_release_tag ("1.2" +:+ "-dev") = true.
Proof. exact (is_release_tag_extends "1.2" "-dev" eq_refl). Defined.

Lemma is_release_tag_necessary_witness :
  PyStr.contains "." "v2.0.3" = true /\
  exists a rest,
    "v2.0.3" = String a rest /\
    (a = "v"%char \/ (48 <= N_of_ascii a <= 57)%N \/ (128 <= N_of_ascii a)%N).
Proof.
  destruct (is_release_tag_necessary "v2.0.3" eq_refl) as (Hdot & _ & Hfirst).
  split; [exact Hdot | exact Hfirst].
Defined.

Section CacheNames.
Context {E : Env}.
Import PyStr Wrapper.

Lemma replace_append (a b : ascii) (x y : string) :
  replace a b (x +:+ y) = replace a b x +:+ replace a b y.
Proof. induction x as [|c x IH]; simpl; [reflexivity | now rewrite IH]. Qed.

Lemma append_inj_r (a x y : string) : a +:+ x = a +:+ y -> x = y.
Proof.
  induction a as [|c a IH]; simpl; [auto|]. intros [= H]. auto.
Qed.

(** X6. Flattening is not injective on file paths: for one version, the
    paths [a/b] and [a_b] are different and get the same cache file name;
    and version [ref] with path [a/b] shares its name with version
    [ref_a] (flattened) and path [b]. *)
Theorem cache_filename_collisions (ref a b : string) :
  a +:+ "/" +:+ b <> a +:+ "_" +:+ b /\
  cache_filename ref (a +:+ "/" +:+ b) = cache_filename ref (a +:+ "_" +:+ b) /\
  cache_filename (ref +:+ "_" +:+ replace "/" "_" a) b
  = cache_filename ref (a +:+ "/" +:+ b).
Proof.
  split; [|split].
  - intros H. apply append_inj_r in H. discriminate.
  - unfold cache_filename. now rewrite !replace_append.
  - unfold cache_filename. rewrite !replace_append.
    now rewrite !append_assoc.
Qed.

(** X7. With the version given in the reference, the cache file name
    contains no slash: the cache file is a direct entry of the cache
    directory. *)
Theorem cache_filename_explicit_ref_flat
    (repo_part rest owner repo filepath : string) (version : pyval)
    (w w' : World) :
  contains "@" repo_part = false ->
  parse_github_path ("gh:" +:+ repo_part +:+ "@" +:+ rest) w
  = (Ok (owner, repo, version, filepath), w') ->
  contains "/" (cache_filename (py_format version) filepath) = false.
Proof.
  intros Hrp H.
  destruct (parse_at_success _ _ _ _ _ _ _ _ Hrp H)
    as (ref & -> & _ & _ & Href & _).
  unfold cache_filename. cbn [py_format]. rewrite !contains_append, Href.
  now rewrite contains_replace.
Qed.

(** X9. A reference that does not parse makes the fetcher raise the
    parser's error with no effect: nothing is asked of the retrieval
    helper and no file is touched. *)
Theorem fetch_github_file_parse_error
    (path cache_dir : string) (w w' : World) (e : exn) :
  parse_github_path path w = (Raise e, w') ->
  fetch_github_file path cache_dir w = (Raise e, w).
Proof.
  intros H. destruct (parse_failure _ _ _ _ H) as [-> _].
  unfold fetch_github_file. unfold bind at 1. now rewrite H.
Qed.

End CacheNames.

Lemma cache_filename_explicit_ref_flat_witness :
  PyStr.contains "/" (Wrapper.cache_filename "master" "docs/project.yaml")
  = false.
Proof.
  exact (@cache_filename_explicit_ref_flat Demo.plain
           "easyscience/peasy" "master/docs/project.yaml"
           "easyscience" "peasy" "docs/project.yaml" (PStr "master")
           Demo.w0 Demo.w0 eq_refl eq_refl).
Defined.

Lemma fetch_github_file_parse_error_witness :
  @Wrapper.fetch_github_file Demo.plain "gh:acme/widgets@master"
    Demo.cache_dir Demo.w0
  = (Raise (Wrapper.invalid_format "gh:acme/widgets@master"
              "gh:owner/repo@ref/filepath"), Demo.w0).
Proof.
  exact (@fetch_github_file_parse_error Demo.plain "gh:acme/widgets@master"
           Demo.cache_dir Demo.w0 Demo.w0 _ eq_refl).
Defined.

(** * Further properties of the command forwarder *)

Section ScanFacts.
Import PyStr Wrapper.

Lemma scan_args_app_pair (pre : list string) :
  (forall acc gd ca gd0 rest,
      scan_args pre acc gd = Some (ca, gd0) ->
      scan_args (pre ++ rest) acc gd = scan_args rest ca gd0) /\
  (forall acc gd ca gd0 rest,
      scan_args (tl pre) acc gd = Some (ca, gd0) ->
      scan_args (tl pre ++ rest) acc gd = scan_args rest ca gd0).
Proof.
  induction pre as [|a pre [IH1 IH2]].
  - split; intros acc gd ca gd0 rest [= <- <-]; reflexivity.
  - split; [|exact IH1].
    intros acc gd ca gd0 rest H. cbn [app scan_args] in *.
    destruct (String.eqb a "--gh-data").
    + destruct pre as [|v pre']; [discriminate|].
      cbn [app]. exact (IH2 _ _ _ _ rest H).
    + exact (IH1 _ _ _ _ rest H).
Qed.

(** Scanning a concatenation is scanning its parts in sequence. *)
Lemma scan_args_app (pre rest acc ca : list string) gd gd0 :
  scan_args pre acc gd = Some (ca, gd0) ->
  scan_args (pre ++ rest) acc gd = scan_args rest ca gd0.
Proof. apply scan_args_app_pair. Qed.

Lemma scan_args_plain (args acc : list string) gd :
  ~ In "--gh-data" args -> scan_args args acc gd = Some (acc ++ args, gd).
Proof.
  revert acc. induction args as [|a args IH]; intros acc Hno; cbn [scan_args].
  - now rewrite app_nil_r.
  - destruct (String.eqb_spec a "--gh-data") as [-> | Hne].
    + exfalso. apply Hno. now left.
    + rewrite IH by (intros H; apply Hno; now right).
      now rewrite <- app_assoc.
Qed.

(** X10. The last [--gh-data] decides: its value is the data reference,
    the values of earlier occurrences are dropped, and the pass-through
    arguments before and after it keep their order. *)
Theorem scan_args_last_wins
    (pre post ca : list string) (value : string) gd0 :
  scan_args pre [] None = Some (ca, gd0) ->
  ~ In "--gh-data" post ->
  scan_args (pre ++ "--gh-data" :: value :: post) [] None
  = Some (ca ++ post, Some value).
Proof.
  intros Hpre Hpost. rewrite (scan_args_app _ _ _ _ _ _ Hpre).
  cbn [scan_args String.eqb Ascii.eqb Bool.eqb]. cbn.
  now apply scan_args_plain.
Qed.

Lemma scan_args_passthrough_pair (args : list string) :
  (forall acc gd ca gd',
      scan_args args acc gd = Some (ca, gd') ->
      exists l, ca = acc ++ l /\ sublist l args /\ ~ In "--gh-data" l) /\
  (forall acc gd ca gd',
      scan_args (tl args) acc gd = Some (ca, gd') ->
      exists l, ca = acc ++ l /\ sublist l (tl args) /\ ~ In "--gh-data" l).
Proof.
  induction args as [|a args [IH1 IH2]].
  - split; intros acc gd ca gd' [= <- <-]; exists [];
      (split; [now rewrite app_nil_r | split; [constructor | intros []]]).
  - split; [|exact IH1].
    intros acc gd ca gd' H. cbn [scan_args] in H.
    destruct (String.eqb_spec a "--gh-data") as [-> | Hne].
    + destruct args as [|v args']; [discriminate|].
      destruct (IH2 _ _ _ _ H) as (l & -> & Hsub & Hno).
      exists l. split; [reflexivity|]. split; [|exact Hno].
      apply sublist_cons, sublist_cons, Hsub.
    + destruct (IH1 _ _ _ _ H) as (l & -> & Hsub & Hno).
      exists (a :: l). split; [now rewrite <- app_assoc|]. split.
      * now apply sublist_skip.
      * intros [Ha | Hl]; [congruence | contradiction].
Qed.

(** X11. The arguments handed on to copier are arguments of the command
    line, in their order, and [--gh-data] is never among them. *)
Theorem scan_args_passthrough (args ca : list string) gd' :
  scan_args args [] None = Some (ca, gd') ->
  sublist ca args /\ ~ In "--gh-data" ca.
Proof.
  intros H.
  destruct (proj1 (scan_args_passthrough_pair args) _ _ _ _ H)
    as (l & -> & Hsub & Hno).
  auto.
Qed.

End ScanFacts.

Lemma scan_args_last_wins_witness :
  Wrapper.scan_args
    (["update"; "--gh-data"; "old.yaml"; "--quiet"]
     ++ "--gh-data" :: "gh:acme/widgets/config.yaml" :: ["--force"]) [] None
  = Some (["update"; "--quiet"] ++ ["--force"],
          Some "gh:acme/widgets/config.yaml").
Proof.
  apply (scan_args_last_wins ["update"; "--gh-data"; "old.yaml"; "--quiet"]
           ["--force"] ["update"; "--quiet"] "gh:acme/widgets/config.yaml"
           (Some "old.yaml") eq_refl).
  intros [H | []]. discriminate H.
Defined.

Lemma scan_args_passthrough_witness :
  sublist ["update"; "--quiet"]
    ["update"; "--gh-data"; "project.yaml"; "--quiet"] /\
  ~ In "--gh-data" ["update"; "--quiet"].
Proof.
  exact (scan_args_passthrough
           ["update"; "--gh-data"; "project.yaml"; "--quiet"]
           ["update"; "--quiet"] (Some "project.yaml") eq_refl).
Defined.

Section ForwarderMore.
Context {E : Env}.
Import PyStr Wrapper.

Lemma startswith_gh_truthy (s : string) :
  startswith s "gh:" = true -> truthy s = true.
Proof. destruct s; [discriminate | reflexivity]. Qed.

(** X12. Without [--gh-data] the wrapper is transparent: copier is started
    with exactly the arguments of the command line, its return code is
    the value of [main], and nothing else happens. *)
Theorem main_transparent (argv : list string) (w : World) (rc : Z) :
  ~ In "--gh-data" (tl argv) ->
  subprocess_run ("copier" :: tl argv) (files w) = Completed rc ->
  main argv w = (Ok rc, after [EvRun ("copier" :: tl argv)] w).
Proof.
  intros Hno Hrun.
  pose proof (scan_args_plain (tl argv) [] None Hno) as Hscan.
  cbn [app] in Hscan.
  rewrite (main_launch argv (tl argv) (tl argv) None w w Hscan eq_refl).
  cbv zeta. now rewrite Hrun.
Qed.

(** X13. A value of [--gh-data] that does not start with [gh:] is a local
    path: it is handed to copier as it is, as [--data-file <value>] after
    all other arguments, without any file or network access. *)
Theorem main_local_data_file
    (argv copier_args : list string) (value : string) (w : World) (rc : Z) :
  scan_args (tl argv) [] None = Some (copier_args, Some value) ->
  truthy value = true -> startswith value "gh:" = false ->
  subprocess_run ("copier" :: copier_args ++ ["--data-file"; value]) (files w)
  = Completed rc ->
  main argv w
  = (Ok rc,
     after [EvRun ("copier" :: copier_args ++ ["--data-file"; value])] w).
Proof.
  intros Hscan Ht Hp Hrun.
  assert (Hproc : process_github_data copier_args (Some value) w
                  = (Ok (inl (copier_args ++ ["--data-file"; value])), w)).
  { unfold process_github_data. now rewrite Ht, Hp. }
  rewrite (main_launch _ _ _ _ _ _ Hscan Hproc). cbv zeta. now rewrite Hrun.
Qed.

(** X14. An empty value of [--gh-data] counts as no value given: copier is
    started without any [--data-file]. *)
Theorem main_empty_data_value
    (argv copier_args : list string) (w : World) (rc : Z) :
  scan_args (tl argv) [] None = Some (copier_args, Some "") ->
  subprocess_run ("copier" :: copier_args) (files w) = Completed rc ->
  main argv w = (Ok rc, after [EvRun ("copier" :: copier_args)] w).
Proof.
  intros Hscan Hrun.
  rewrite (main_launch argv copier_args copier_args (Some "") w w Hscan eq_refl).
  cbv zeta. now rewrite Hrun.
Qed.

(** X15. A [gh:] reference that resolves: the cache directory
    [home/.cache/<owner>/<repo>] is made, the file is fetched into it, and
    copier is started with [--data-file <fetched path>] after all other
    arguments; its return code is the value of [main]. *)
Theorem main_fetched_data_file
    (argv copier_args : list string) (gd owner repo filepath local_file : string)
    (ref : pyval) (w w1 w2 : World) (rc : Z) :
  scan_args (tl argv) [] None = Some (copier_args, Some gd) ->
  parse_github_path gd w = (Ok (owner, repo, ref, filepath), w1) ->
  let cache_dir := path_join (path_join (path_join home ".cache") owner) repo in
  mkdir cache_dir (files w1) = None ->
  fetch_github_file gd cache_dir (after [EvMkdir cache_dir] w1)
  = (Ok local_file, w2) ->
  subprocess_run ("copier" :: copier_args ++ ["--data-file"; local_file])
    (files w2) = Completed rc ->
  main argv w
  = (Ok rc,
     after [EvPrint "";
            EvRun ("copier" :: copier_args ++ ["--data-file"; local_file])] w2).
Proof.
  intros Hscan Hparse cache_dir Hmk Hfetch Hrun.
  assert (Hp : startswith gd "gh:" = true).
  { destruct (startswith gd "gh:") eqn:Hp; [reflexivity|].
    unfold parse_github_path in Hparse. rewrite Hp in Hparse. discriminate. }
  pose proof (process_gh copier_args gd w (startswith_gh_truthy _ Hp) Hp)
    as Hproc.
  rewrite Hparse in Hproc. cbv zeta in Hproc. fold cache_dir in Hproc.
  rewrite Hmk, Hfetch in Hproc.
  rewrite (main_launch _ _ _ _ _ _ Hscan Hproc). cbv zeta.
  cbn [after files trace]. rewrite Hrun.
  unfold after. cbn [files trace]. now rewrite <- app_assoc.
Qed.

(** X16. A [gh:] reference that does not parse: [main] returns 1 after
    printing the failure and nothing else; no lookup, no directory, no
    retrieval, and copier is not started. *)
Theorem main_malformed_reference
    (argv copier_args : list string) (gd : string) (w w' : World) (e : exn) :
  scan_args (tl argv) [] None = Some (copier_args, Some gd) ->
  startswith gd "gh:" = true ->
  parse_github_path gd w = (Raise e, w') ->
  main argv w = (Ok 1, after [EvPrint (failed_msg gd e)] w).
Proof.
  intros Hscan Hp Hparse.
  destruct (parse_failure _ _ _ _ Hparse) as [-> _].
  pose proof (process_gh copier_args gd w (startswith_gh_truthy _ Hp) Hp)
    as Hproc.
  rewrite Hparse in Hproc.
  exact (main_early_return _ _ _ _ _ _ Hscan Hproc).
Qed.

End ForwarderMore.

Lemma main_transparent_witness :
  @Wrapper.main (Demo.env Demo.offline Demo.serve (Completed 2))
    ["copier_wrapper.py"; "copy"; "gh:acme/template"; "."] Demo.w0
  = (Ok 2, after [EvRun ["copier"; "copy"; "gh:acme/template"; "."]] Demo.w0).
Proof.
  apply (@main_transparent (Demo.env Demo.offline Demo.serve (Completed 2))
           ["copier_wrapper.py"; "copy"; "gh:acme/template"; "."] Demo.w0 2).
  - intros [H | [H | [H | []]]]; discriminate H.
  - reflexivity.
Defined.

Lemma main_local_data_file_witness :
  @Wrapper.main Demo.plain
    ["copier_wrapper.py"; "update"; "--gh-data"; "../peasy/project.yaml";
     "--quiet"] Demo.w0
  = (Ok 0,
     after [EvRun ["copier"; "update"; "--quiet"; "--data-file";
                   "../peasy/project.yaml"]] Demo.w0).
Proof.
  exact (@main_local_data_file Demo.plain
           ["copier_wrapper.py"; "update"; "--gh-data"; "../peasy/project.yaml";
            "--quiet"]
           ["update"; "--quiet"] "../peasy/project.yaml" Demo.w0 0
           eq_refl eq_refl eq_refl eq_refl).
Defined.

Lemma main_empty_data_value_witness :
  @Wrapper.main Demo.plain ["copier_wrapper.py"; "update"; "--gh-data"; ""]
    Demo.w0
  = (Ok 0, after [EvRun ["copier"; "update"]] Demo.w0).
Proof.
  exact (@main_empty_data_value Demo.plain
           ["copier_wrapper.py"; "update"; "--gh-data"; ""] ["update"]
           Demo.w0 0 eq_refl eq_refl).
Defined.

Lemma main_fetched_data_file_witness :
  fst (@Wrapper.main Demo.plain
         ["copier_wrapper.py"; "update"; "--gh-data";
          "gh:acme/widgets@v1.0.0/config.yaml"] Demo.w0)
  = Ok 0.
Proof.
  rewrite (@main_fetched_data_file Demo.plain
             ["copier_wrapper.py"; "update"; "--gh-data";
              "gh:acme/widgets@v1.0.0/config.yaml"]
             ["update"] "gh:acme/widgets@v1.0.0/config.yaml"
             "acme" "widgets" "config.yaml"
             "/home/user/.cache/acme/widgets/v1.0.0_config.yaml"
             (PStr "v1.0.0")
             Demo.w0 Demo.w0 _ 0 eq_refl eq_refl eq_refl eq_refl eq_refl).
  reflexivity.
Defined.

Lemma main_malformed_reference_witness :
  @Wrapper.main Demo.plain
    ["copier_wrapper.py"; "update"; "--gh-data"; "gh:acme/widgets"] Demo.w0
  = (Ok 1,
     after [EvPrint (Wrapper.failed_msg "gh:acme/widgets"
                       (Wrapper.invalid_format "gh:acme/widgets"
                          "gh:owner/repo/filepath"))] Demo.w0).
Proof.
  exact (@main_malformed_reference Demo.plain
           ["copier_wrapper.py"; "update"; "--gh-data"; "gh:acme/widgets"]
           ["update"] "gh:acme/widgets" Demo.w0 Demo.w0 _
           eq_refl eq_refl eq_refl).
Defined.

Section ReleaseLookups.
Context {E : Env}.
Import PyStr Wrapper.







End ReleaseLookups.


(** * copier_update.py *)

Section UpdateParser.
Context {E : Env}.
Import PyStr.

Lemma parse_github_url_ok (owner name path : string) :
  contains "/" owner = false -> contains "/" name = false ->
  Update.parse_github_url ("gh:" +:+ owner +:+ "/" +:+ name +:+ "/" +:+ path)
  = Ok (owner +:+ "/" +:+ name, "master", path).
Proof.
  intros Ho Hn. unfold Update.parse_github_url, Update.DEFAULT_BRANCH.
  change (startswith ("gh:" +:+ owner +:+ "/" +:+ name +:+ "/" +:+ path) "gh:")
    with true.
  change (drop 3 ("gh:" +:+ owner +:+ "/" +:+ name +:+ "/" +:+ path))
    with (owner +:+ "/" +:+ name +:+ "/" +:+ path).
  cbn [negb]. now rewrite (splitn2_cut _ _ _ Ho Hn).
Qed.

(** X18. [parse_github_url] knows no version: every success has the
    branch ['master'] and the input is [gh:<owner>/<name>/<path>] cut at
    its first two slashes; a [@] has no meaning, so [owner/name@dev/path]
    gives the repository [owner/name@dev]; inputs without the prefix or
    with fewer than two slashes are rejected with a [ValueError]. *)
Theorem parse_github_url_shape (url : string) :
  (forall repo branch path,
      Update.parse_github_url url = Ok (repo, branch, path) ->
      branch = "master" /\
      exists owner name,
        repo = owner +:+ "/" +:+ name /\
        url = "gh:" +:+ owner +:+ "/" +:+ name +:+ "/" +:+ path /\
        contains "/" owner = false /\ contains "/" name = false) /\
  (forall owner name path,
      url = "gh:" +:+ owner +:+ "/" +:+ name +:+ "/" +:+ path ->
      contains "/" owner = false -> contains "/" name = false ->
      Update.parse_github_url url
      = Ok (owner +:+ "/" +:+ name, "master", path)) /\
  (startswith url "gh:" = false \/
   (~ exists owner name path,
        url = "gh:" +:+ owner +:+ "/" +:+ name +:+ "/" +:+ path /\
        contains "/" owner = false /\ contains "/" name = false) ->
   exists msg, Update.parse_github_url url = Raise (ValueError msg)).
Proof.
  unfold Update.parse_github_url, Update.DEFAULT_BRANCH.
  split; [|split].
  - intros repo branch path H.
    destruct (startswith url "gh:") eqn:Hp; cbn [negb] in H; [|discriminate].
    pose proof (startswith_inv _ _ Hp) as Hurl. cbn [String.length] in Hurl.
    destruct (splitn "/" 2 (drop 3 url)) as [|a [|b [|c [|d l]]]] eqn:Hs;
      try discriminate.
    injection H as <- <- <-.
    apply splitn2_three in Hs as (Hs & Ha & Hb).
    split; [reflexivity|]. exists a, b. rewrite Hs in Hurl. auto.
  - intros owner name path -> Ho Hn.
    exact (parse_github_url_ok _ _ _ Ho Hn).
  - intros Hbad.
    destruct (startswith url "gh:") eqn:Hp; cbn [negb];
      [|eexists; reflexivity].
    destruct Hbad as [Hbad | Hbad]; [discriminate|].
    pose proof (startswith_inv _ _ Hp) as Hurl. cbn [String.length] in Hurl.
    destruct (splitn "/" 2 (drop 3 url)) as [|a [|b [|c [|d l]]]] eqn:Hs;
      try (eexists; reflexivity).
    exfalso. apply Hbad. exists a, b, c.
    apply splitn2_three in Hs as (Hs & Ha & Hb). rewrite Hs in Hurl. auto.
Qed.

(** X19. On references without [@] the two parsers agree: whenever the
    wrapper's parser succeeds, [parse_github_url] returns the same owner
    and repository (joined by a slash) and the same file path, with the
    branch ['master']; and when the release lookup fails both scripts
    download from the same URL. *)
Theorem parsers_agree_without_version
    (path owner repo filepath : string) (ref : pyval) (w w' : World) :
  contains "@" (drop 3 path) = false ->
  Wrapper.parse_github_path path w = (Ok (owner, repo, ref, filepath), w') ->
  Update.parse_github_url path
  = Ok (owner +:+ "/" +:+ repo, "master", filepath) /\
  (lookup_failed (http_get (Wrapper.releases_url owner repo)) ->
   Update.raw_url (owner +:+ "/" +:+ repo) "master" filepath
   = Wrapper.raw_url owner repo (py_format ref) filepath).
Proof.
  intros Hat H.
  assert (Hp : startswith path "gh:" = true).
  { destruct (startswith path "gh:") eqn:Hp; [reflexivity|].
    unfold Wrapper.parse_github_path in H. rewrite Hp in H. discriminate. }
  rewrite (parse_plain_unfold _ _ Hp Hat) in H.
  unfold Update.parse_github_url, Update.DEFAULT_BRANCH. rewrite Hp.
  cbn [negb].
  destruct (splitn "/" 2 (drop 3 path)) as [|a [|b [|c [|d l]]]];
    try discriminate.
  unfold bind in H.
  split.
  - rewrite get_stable_ref_run in H. now injection H as -> -> _ ->.
  - intros Hfail.
    assert (Hab : a = owner /\ b = repo /\ c = filepath).
    { rewrite get_stable_ref_run in H. now injection H as -> -> _ ->. }
    destruct Hab as (-> & -> & ->).
    rewrite (get_stable_ref_failed _ _ _ Hfail) in H.
    injection H as <- _.
    unfold Update.raw_url, Wrapper.raw_url. cbv zeta.
    now rewrite !append_assoc.
Qed.

(** X20. [fetch_project_data] never refreshes: with a retrieval helper
    that reuses a present file, a file already cached under the flattened
    path is returned as it is, for whatever repository and branch the
    download was asked; nothing is removed or rewritten. *)
Theorem fetch_project_data_serves_cached
    (repo branch filepath dir content : string) (w : World) :
  reuses_present_file E ->
  files w !! path_join dir (Update.cache_filename filepath) = Some content ->
  Update.fetch_project_data repo branch filepath dir w
  = (Ok (path_join dir (Update.cache_filename filepath)),
     after [EvRetrieve (Update.raw_url repo branch filepath) dir
              (Update.cache_filename filepath);
            EvPrint ("Copied " +:+ filepath +:+ " from " +:+ repo)] w).
Proof.
  intros Hreuse Hfile.
  unfold Update.fetch_project_data. unfold bind at 1.
  rewrite retrieve_run, Hreuse by (rewrite Hfile; eauto).
  cbv [fst snd bind print emit ret after files trace].
  now rewrite <- app_assoc.
Qed.

End UpdateParser.

(** The version of the reference ends up in the repository name. *)
Lemma parse_github_url_shape_witness :
  Update.parse_github_url "gh:easyscience/peasy@dev/project.yaml"
  = Ok ("easyscience/peasy@dev", "master", "project.yaml").
Proof.
  exact (proj1 (proj2 (parse_github_url_shape
                         "gh:easyscience/peasy@dev/project.yaml"))
           "easyscience" "peasy@dev" "project.yaml" eq_refl eq_refl eq_refl).
Defined.

Lemma parsers_agree_without_version_witness :
  Update.parse_github_url "gh:acme/widgets/docs/config.yaml"
  = Ok ("acme/widgets", "master", "docs/config.yaml").
Proof.
  exact (proj1 (@parsers_agree_without_version Demo.plain
                  "gh:acme/widgets/docs/config.yaml"
                  "acme" "widgets" "docs/config.yaml" (PStr "master") Demo.w0 _
                  eq_refl eq_refl)).
Defined.

(** A file cached from [master] is what a request for [dev] returns. *)
Lemma fetch_project_data_serves_cached_witness :
  fst (@Update.fetch_project_data Demo.plain "acme/widgets" "dev"
         "config.yaml" Demo.cache_dir
         (Demo.cached "/home/user/.cache/acme/widgets/config.yaml"
            "from: master"))
  = Ok "/home/user/.cache/acme/widgets/config.yaml".
Proof.
  rewrite (@fetch_project_data_serves_cached Demo.plain "acme/widgets" "dev"
             "config.yaml" Demo.cache_dir "from: master"
             (Demo.cached "/home/user/.cache/acme/widgets/config.yaml"
                "from: master")
             (demo_reuses_present_file _ _ _) eq_refl).
  reflexivity.
Defined.

(** ** The entry point of copier_update.py *)

Section UpdateMainFacts.
Context {E : Env} {L : UpdateMain.Lib}.
Import PyStr UpdateMain.

(** The three lines printed before anything is done. *)
Lemma header_events_unfold (args : Namespace) (w : World) (k : M Z) :
  (print updating_msg ;;
   print ("   VCS reference: " +:+ vcs_ref args) ;;
   print ("   Answers file: " +:+ answers_file args +:+ nl) ;;
   k) w
  = k (after [EvPrint updating_msg;
              EvPrint ("   VCS reference: " +:+ vcs_ref args);
              EvPrint ("   Answers file: " +:+ answers_file args +:+ nl)] w).
Proof.
  cbv [bind print emit after files trace]. now rewrite <- !app_assoc.
Qed.

(** [main], outcome by outcome. *)
Lemma update_main_unfold (args : Namespace) (w : World) :
  main args w =
  let w1 := after [EvPrint updating_msg;
                   EvPrint ("   VCS reference: " +:+ vcs_ref args);
                   EvPrint ("   Answers file: " +:+ answers_file args +:+ nl)]
              w in
  match locate_data_file args w1 with
  | (Raise e, w2) => (Ok 1, after [EvPrint (update_failed_msg e)] w2)
  | (Ok file, w2) =>
      match run_update cwd (vcs_ref args) (answers_file args) file true
              (files w2) with
      | (None, fs) =>
          (Ok 0, {| files := fs;
                    trace := trace w2 ++ [EvPrint running_msg;
                                          EvPrint updated_msg] |})
      | (Some e, fs) =>
          (Ok 1, {| files := fs;
                    trace := trace w2 ++ [EvPrint running_msg;
                                          EvPrint (update_failed_msg e)] |})
      end
  end.
Proof.
  unfold main. rewrite header_events_unfold. cbv zeta.
  unfold try_except. unfold bind at 1.
  destruct (locate_data_file args _) as [[file | e] w2]; [|reflexivity].
  cbv [bind print emit update ret after files trace].
  destruct (run_update _ _ _ _ _ _) as [[e|] fs];
    now rewrite <- !app_assoc.
Qed.

Lemma locate_local (args : Namespace) (w : World) :
  startswith (data_file args) "gh:" = false ->
  locate_data_file args w =
  let file := path_str (data_file args) in
  (match files w !! file with
   | Some _ => Ok file
   | None => Raise (FileNotFoundError ("Data file not found: " +:+ file))
   end,
   after [EvPrint ("   Data source: " +:+ file)] w).
Proof.
  intros Hp. unfold locate_data_file. rewrite Hp.
  cbv [bind print emit path_exists ret raise after]. cbn [files trace].
  destruct (files w !! path_str (data_file args)) as [c|] eqn:Hc.
  - rewrite bool_decide_eq_true_2 by eauto. reflexivity.
  - rewrite bool_decide_eq_false_2 by (intros [c Hc']; congruence).
    reflexivity.
Qed.

(** X22. A local data file that does not exist: [main] returns 1 after
    reporting it; the update is not run and no file is touched. *)
Theorem update_main_missing_file (args : Namespace) (w : World) :
  startswith (data_file args) "gh:" = false ->
  files w !! path_str (data_file args) = None ->
  main args w
  = (Ok 1,
     after [EvPrint updating_msg;
            EvPrint ("   VCS reference: " +:+ vcs_ref args);
            EvPrint ("   Answers file: " +:+ answers_file args +:+ nl);
            EvPrint ("   Data source: " +:+ path_str (data_file args));
            EvPrint (update_failed_msg
                       (FileNotFoundError
                          ("Data file not found: "
                           +:+ path_str (data_file args))))] w).
Proof.
  intros Hp Hnone. rewrite update_main_unfold. cbv zeta.
  rewrite (locate_local _ _ Hp). cbv zeta. cbn [after files trace].
  rewrite Hnone. unfold after. cbn [files trace].
  now rewrite <- !app_assoc.
Qed.

(** X23. A local data file that exists: the update runs on the current
    directory with the options of the command line, that file and
    [overwrite=True]; [main] returns 0 when it returns and 1 when it
    raises; the files are those the update leaves. *)
Theorem update_main_local_file
    (args : Namespace) (w : World) (content : string) :
  startswith (data_file args) "gh:" = false ->
  files w !! path_str (data_file args) = Some content ->
  let out := run_update cwd (vcs_ref args) (answers_file args)
               (path_str (data_file args)) true (files w) in
  exists w',
    main args w = (Ok match fst out with Some _ => 1 | None => 0 end, w') /\
    files w' = snd out.
Proof.
  intros Hp Hsome out. subst out. rewrite update_main_unfold. cbv zeta.
  rewrite (locate_local _ _ Hp). cbv zeta. cbn [after files trace].
  rewrite Hsome.
  destruct (run_update _ _ _ _ _ _) as [[e|] fs]; eauto.
Qed.


End UpdateMainFacts.

Lemma update_main_missing_file_witness :
  fst (@UpdateMain.main Demo.plain Demo.lib
         {| UpdateMain.vcs_ref := "master";
            UpdateMain.answers_file := ".copier-answers.lib.yml";
            UpdateMain.data_file := "project.yaml" |} Demo.w0)
  = Ok 1.
Proof.
  rewrite (@update_main_missing_file Demo.plain Demo.lib
             {| UpdateMain.vcs_ref := "master";
                UpdateMain.answers_file := ".copier-answers.lib.yml";
                UpdateMain.data_file := "project.yaml" |} Demo.w0
             eq_refl eq_refl).
  reflexivity.
Defined.

Lemma update_main_local_file_witness :
  exists w',
    @UpdateMain.main Demo.plain Demo.lib
      {| UpdateMain.vcs_ref := "master";
         UpdateMain.answers_file := ".copier-answers.lib.yml";
         UpdateMain.data_file := "project.yaml" |}
      (Demo.cached "project.yaml" "name: demo")
    = (Ok 0, w') /\
    files w' !! "/work/project/.copier-answers.lib.yml" = Some "project.yaml".
Proof.
  destruct (@update_main_local_file Demo.plain Demo.lib
              {| UpdateMain.vcs_ref := "master";
                 UpdateMain.answers_file := ".copier-answers.lib.yml";
                 UpdateMain.data_file := "project.yaml" |}
              (Demo.cached "project.yaml" "name: demo") "name: demo"
              eq_refl eq_refl) as (w' & Hrun & Hfiles).
  exists w'. split; [exact Hrun|]. rewrite Hfiles. reflexivity.
Defined.

